(** * ArduinoWaterSampler: sequencing engine, configuration store and editor

    A shallow embedding of [ArduinoWaterSampler.ino] (the EEPROM-backed
    sketch with the three-button editor).  The sketch is a single
    cooperative loop over global variables; every procedure of the sketch
    becomes a function on the record [State] of those globals.  Indexing
    one of the two C arrays ([PUMP_PINS], [pumpActive]) outside [0..5] is
    undefined behaviour in the sketch; here it makes the procedure return
    [None]. *)

From Stdlib Require Import ZArith Lia Ascii String.
From stdpp Require Import base option list gmap.

Local Open Scope Z_scope.

(** ** Machine integers

    [int] is 16 bits wide on the AVR targets of the sketch, [long] and
    [unsigned long] are 32 bits wide. *)

Definition wrap16 (z : Z) : Z := (z + 32768) mod 65536 - 32768.
Definition to_ulong (z : Z) : Z := z mod 4294967296.

(** Truncating division and remainder of C ([/] and [%]). *)
Definition c_div (a b : Z) : Z := Z.quot a b.
Definition c_rem (a b : Z) : Z := Z.rem a b.

(** Arduino's [max(a,b)] macro, [((a)>(b)?(a):(b))]. *)
Definition c_max (a b : Z) : Z := if a >? b then a else b.

(** ** Constants of the sketch *)

Definition MIN2MILLI : Z := 60 * 1000.
Definition PUMP_PINS : list Z := [8; 9; 10; 11; 12; 13].
Definition upBtn : Z := c_div 1023 3.
Definition downBtn : Z := c_div 1023 2.
Definition nextBtn : Z := 1023.

(** ** Capabilities used by the sketch *)

(** The callbacks the sketch hands to the timer. *)
Inductive Callback := CbStartPump | CbStopPump | CbBlink.

#[global] Instance Callback_eq_dec : EqDecision Callback.
Proof. solve_decision. Defined.

(** Modelled from the spec: the delayed-callback timer capability
    ([Timer.h] is a library outside the sketch), exposed as
    [after(delayMs, callback)] (single shot) and
    [every(intervalMs, callback)] (periodic).  A pending entry records the
    period it was registered with, whether it repeats, and its callback. *)
Record TimerEvent := mkTimerEvent {
  period : Z;
  repeats : bool;
  callback : Callback
}.

#[global] Instance TimerEvent_eq_dec : EqDecision TimerEvent.
Proof. solve_decision. Defined.

(** What [displayBig] last put on the screen. *)
Inductive Screen := ScrPages | ScrBig (msg : string).

(** ** The globals of the sketch *)

Record State := mkState {
  error : bool;
  running : bool;
  reqRestart : bool;
  cursorPos : Z;
  blinker : bool;
  initPumpNo : Z;
  currentPumpNo : Z;
  pumpActive : list bool;
  (* Properties: the persisted configuration, id -> value *)
  properties : gmap Z Z;
  (* timer: the pending entries, in registration order *)
  timer : list TimerEvent;
  (* digital outputs: pin -> level written by digitalWrite *)
  pinLevel : gmap Z bool;
  (* pins put in OUTPUT mode by pinMode *)
  pinOutput : gset Z;
  screen : Screen
}.

Definition set_running (b : bool) (s : State) : State :=
  mkState (error s) b (reqRestart s) (cursorPos s) (blinker s) (initPumpNo s)
    (currentPumpNo s) (pumpActive s) (properties s) (timer s) (pinLevel s)
    (pinOutput s) (screen s).
Definition set_reqRestart (b : bool) (s : State) : State :=
  mkState (error s) (running s) b (cursorPos s) (blinker s) (initPumpNo s)
    (currentPumpNo s) (pumpActive s) (properties s) (timer s) (pinLevel s)
    (pinOutput s) (screen s).
Definition set_cursorPos (z : Z) (s : State) : State :=
  mkState (error s) (running s) (reqRestart s) z (blinker s) (initPumpNo s)
    (currentPumpNo s) (pumpActive s) (properties s) (timer s) (pinLevel s)
    (pinOutput s) (screen s).
Definition set_blinker (b : bool) (s : State) : State :=
  mkState (error s) (running s) (reqRestart s) (cursorPos s) b (initPumpNo s)
    (currentPumpNo s) (pumpActive s) (properties s) (timer s) (pinLevel s)
    (pinOutput s) (screen s).
Definition set_initPumpNo (z : Z) (s : State) : State :=
  mkState (error s) (running s) (reqRestart s) (cursorPos s) (blinker s) z
    (currentPumpNo s) (pumpActive s) (properties s) (timer s) (pinLevel s)
    (pinOutput s) (screen s).
Definition set_currentPumpNo (z : Z) (s : State) : State :=
  mkState (error s) (running s) (reqRestart s) (cursorPos s) (blinker s)
    (initPumpNo s) z (pumpActive s) (properties s) (timer s) (pinLevel s)
    (pinOutput s) (screen s).
Definition set_pumpActive (l : list bool) (s : State) : State :=
  mkState (error s) (running s) (reqRestart s) (cursorPos s) (blinker s)
    (initPumpNo s) (currentPumpNo s) l (properties s) (timer s) (pinLevel s)
    (pinOutput s) (screen s).
Definition set_properties (m : gmap Z Z) (s : State) : State :=
  mkState (error s) (running s) (reqRestart s) (cursorPos s) (blinker s)
    (initPumpNo s) (currentPumpNo s) (pumpActive s) m (timer s) (pinLevel s)
    (pinOutput s) (screen s).
Definition set_timer (t : list TimerEvent) (s : State) : State :=
  mkState (error s) (running s) (reqRestart s) (cursorPos s) (blinker s)
    (initPumpNo s) (currentPumpNo s) (pumpActive s) (properties s) t
    (pinLevel s) (pinOutput s) (screen s).
Definition set_pinLevel (m : gmap Z bool) (s : State) : State :=
  mkState (error s) (running s) (reqRestart s) (cursorPos s) (blinker s)
    (initPumpNo s) (currentPumpNo s) (pumpActive s) (properties s) (timer s) m
    (pinOutput s) (screen s).
Definition set_pinOutput (o : gset Z) (s : State) : State :=
  mkState (error s) (running s) (reqRestart s) (cursorPos s) (blinker s)
    (initPumpNo s) (currentPumpNo s) (pumpActive s) (properties s) (timer s)
    (pinLevel s) o (screen s).
Definition set_screen (d : Screen) (s : State) : State :=
  mkState (error s) (running s) (reqRestart s) (cursorPos s) (blinker s)
    (initPumpNo s) (currentPumpNo s) (pumpActive s) (properties s) (timer s)
    (pinLevel s) (pinOutput s) d.

(** ** Array access

    [arr[i]] for a C array of known length: defined only inside the
    array. *)

Definition array_get {A} (arr : list A) (i : Z) : option A :=
  if bool_decide (0 <= i) then arr !! Z.to_nat i else None.

Definition array_set {A} (arr : list A) (i : Z) (x : A) : option (list A) :=
  if bool_decide (0 <= i < Z.of_nat (length arr))
  then Some (<[Z.to_nat i := x]> arr) else None.

(** ** Properties, Timer, digital pins and display *)

(** Modelled from the spec: the persisted-storage capability
    ([Properties.h] is a library outside the sketch), exposed as
    [getInt(index)], [set(index, value)] and [save()].  An id that was
    never stored reads as 0. *)
Definition Properties_getInt (id : Z) (s : State) : Z :=
  default 0 (properties s !! id).
Definition Properties_set (id v : Z) (s : State) : State :=
  set_properties (<[id := v]> (properties s)) s.
(** [save] writes the in-memory table through to EEPROM; the table read
    back by [getInt] is unchanged. *)
Definition Properties_save (s : State) : State := s.

Definition timer_after (duration : Z) (cb : Callback) (s : State) : State :=
  set_timer (timer s ++ [mkTimerEvent (to_ulong duration) false cb]) s.
Definition timer_every (p : Z) (cb : Callback) (s : State) : State :=
  set_timer (timer s ++ [mkTimerEvent (to_ulong p) true cb]) s.

Definition digitalWrite (pin : Z) (level : bool) (s : State) : State :=
  set_pinLevel (<[pin := level]> (pinLevel s)) s.
Definition pinMode_OUTPUT (pin : Z) (s : State) : State :=
  set_pinOutput ({[pin]} ∪ pinOutput s) s.

(** [displayBig(str)]; the [Serial] debug output and the blocking
    [delay(800)] that follows each notification leave the globals alone and
    are not represented. *)
Definition displayBig (str : string) (s : State) : State :=
  set_screen (ScrBig str) s.

(** ** The procedures of the sketch *)

(** A counted [for] loop over the given indices; the body may fail. *)
Fixpoint for_each (body : Z → State → option State) (idx : list Z)
    (s : State) : option State :=
  match idx with
  | [] => Some s
  | i :: idx' => s' ← body i s; for_each body idx' s'
  end.

(** [void stopPump(int pumpNo)] *)
Definition stopPump_at (pumpNo : Z) (s : State) : option State :=
  pin ← array_get PUMP_PINS pumpNo;
  let s1 := digitalWrite pin false s in
  active ← array_set (pumpActive s1) pumpNo false;
  Some (set_pumpActive active s1).

(** [void stopPump()], the timer callback *)
Definition stopPump (s : State) : option State :=
  s1 ← stopPump_at (currentPumpNo s) s;
  Some (set_currentPumpNo (wrap16 (currentPumpNo s1 + 1)) s1).

(** [void startPump(int pumpNo)].  The runtime is an [int] widened to
    [long] before the product with [MIN2MILLI], which therefore cannot
    overflow; [timer.after] takes it as [unsigned long]. *)
Definition startPump_at (pumpNo : Z) (s : State) : option State :=
  if running s then
    pin ← array_get PUMP_PINS pumpNo;
    let s1 := digitalWrite pin true s in
    active ← array_set (pumpActive s1) pumpNo true;
    let s2 := set_pumpActive active s1 in
    let s3 := timer_after (Properties_getInt 6 s2 * MIN2MILLI) CbStopPump s2 in
    for_each
      (λ i s', if bool_decide (i ≠ pumpNo) then stopPump_at i s' else Some s')
      (seqZ 0 6) s3
  else Some s.

(** [void startPump()], the timer callback *)
Definition startPump (s : State) : option State :=
  s1 ← startPump_at (initPumpNo s) s;
  Some (set_initPumpNo (wrap16 (initPumpNo s1 + 1)) s1).

(** [void setupPumps()] *)
Definition setupPumps (s : State) : option State :=
  s1 ← for_each
         (λ i s',
            pin ← array_get PUMP_PINS i;
            Some (timer_after (Properties_getInt i s' * MIN2MILLI) CbStartPump
                    (pinMode_OUTPUT pin s')))
         (seqZ 0 6) s;
  Some (set_initPumpNo 0 s1).

(** [void overWater(ButtonInformation* Sender)]: the halting code is commented
    out in the sketch; what is left is the notification. *)
Definition overWater (s : State) : option State :=
  Some (displayBig "Water?"%string s).

(** [void underWater(ButtonInformation* Sender)] *)
Definition underWater (s : State) : option State :=
  s1 ← (if negb (running s) then setupPumps (set_running true s) else Some s);
  Some (displayBig "Started"%string s1).

(** [void modify(int pump, int mins)] *)
Definition modify (pump mins : Z) (s : State) : State :=
  let s1 := set_reqRestart true s in
  let s2 := Properties_set pump
              (c_max (wrap16 (Properties_getInt pump s1 + mins)) 0) s1 in
  Properties_save s2.

(** [void saveAndRestart()] *)
Definition saveAndRestart (s : State) : option State :=
  setupPumps (displayBig ("Saving" ++ String "010"%char "Config")%string s).

(** [void incrementCursor(ButtonInformation* Sender)] *)
Definition incrementCursor (s : State) : option State :=
  let s1 := set_cursorPos (c_rem (wrap16 (cursorPos s + 1)) 14) s in
  if (cursorPos s1 =? 0) && reqRestart s1 then saveAndRestart s1 else Some s1.

(** [void decrementCursor(ButtonInformation* Sender)] *)
Definition decrementCursor (s : State) : option State :=
  Some (set_cursorPos (c_max (wrap16 (cursorPos s - 2)) 0) s).

(** [void changeVal(ButtonInformation* Sender)]; [analogValue] is
    [Sender->analogValue]. *)
Definition changeVal (analogValue : Z) (s : State) : option State :=
  let inc := if c_rem (cursorPos s) 2 =? 0 then 60 else 1 in
  if analogValue =? upBtn then Some (modify (c_div (cursorPos s) 2) inc s)
  else if analogValue =? downBtn
       then Some (modify (c_div (cursorPos s) 2) (- inc) s)
       else Some s.

(** [void bigChangeVal(ButtonInformation* Sender)] *)
Definition bigChangeVal (analogValue : Z) (s : State) : option State :=
  let inc := if c_rem (cursorPos s) 2 =? 0 then 540 else 9 in
  if analogValue =? upBtn then Some (modify (c_div (cursorPos s) 2) inc s)
  else if analogValue =? downBtn
       then Some (modify (c_div (cursorPos s) 2) (- inc) s)
       else Some s.

(** [void blink()] *)
Definition blink (s : State) : option State :=
  Some (set_blinker (negb (blinker s)) s).

(** The globals after [setup()]: [stored] is what [Properties.load()]
    found in EEPROM and [loaded] is its result. *)
Definition setup (stored : gmap Z Z) (loaded : bool) : State :=
  timer_every 500 CbBlink
    (mkState (negb loaded) false false 0 false 0 0
       [false; false; false; false; false; false]
       stored [] ∅ ∅ ScrPages).

(** ** The control loop

    One iteration of [loop()] lets the timer fire due callbacks and lets
    [ButtonEvent] dispatch to the handlers registered in [setup()].  An
    event is one such dispatch. *)

Inductive Event :=
| EvUnderWater                      (* float switch closes *)
| EvOverWater                       (* float switch opens *)
| EvIncrementCursor                 (* next button: incrementCursor *)
| EvDecrementCursor                 (* next button: decrementCursor *)
| EvChangeVal (analogValue : Z)     (* up or down button: changeVal *)
| EvBigChangeVal (analogValue : Z)  (* up or down button: bigChangeVal *)
| EvTimer (k : nat).                (* pending timer entry k comes due *)

Definition run_callback (cb : Callback) (s : State) : option State :=
  match cb with
  | CbStartPump => startPump s
  | CbStopPump => stopPump s
  | CbBlink => blink s
  end.

(** The timer calls the callback of entry [k] and then drops the entry
    unless it is periodic; with no such entry nothing is due. *)
Definition timer_fire (k : nat) (s : State) : option State :=
  match timer s !! k with
  | None => Some s
  | Some ev =>
      s1 ← run_callback (callback ev) s;
      Some (if repeats ev then s1 else set_timer (delete k (timer s1)) s1)
  end.

Definition step (e : Event) (s : State) : option State :=
  match e with
  | EvUnderWater => underWater s
  | EvOverWater => overWater s
  | EvIncrementCursor => incrementCursor s
  | EvDecrementCursor => decrementCursor s
  | EvChangeVal v => changeVal v s
  | EvBigChangeVal v => bigChangeVal v s
  | EvTimer k => timer_fire k s
  end.

Fixpoint run (evs : list Event) (s : State) : option State :=
  match evs with
  | [] => Some s
  | e :: evs' => s' ← step e s; run evs' s'
  end.

(** ** Drawing the pages

    [loop()] redraws the current page on every iteration.  The page is
    what the sketch prints, token by token, each token in the text colour
    in force when it is printed. *)

Inductive Item := ItText (str : string) | ItNumber (z : Z) | ItNewline.

Record Token := mkToken {
  item : Item;
  inverse : bool   (* white on black *)
}.

(** Modelled from the spec: the display capability ([Adafruit_PCD8544]
    and [Adafruit_GFX] are libraries outside the sketch), which accepts
    text-size, cursor and colour settings and print commands. *)
Record Display := mkDisplay {
  textSize : Z;
  textInverse : bool;
  textCursor : Z * Z;
  shown : list Token
}.

Definition clearDisplay (d : Display) : Display :=
  mkDisplay (textSize d) (textInverse d) (0, 0) [].
Definition setTextSize (n : Z) (d : Display) : Display :=
  mkDisplay n (textInverse d) (textCursor d) (shown d).
Definition setCursor (x y : Z) (d : Display) : Display :=
  mkDisplay (textSize d) (textInverse d) (x, y) (shown d).
(** [setTextColor(BLACK)] and [setTextColor(WHITE, BLACK)] *)
Definition setTextColor_BLACK (d : Display) : Display :=
  mkDisplay (textSize d) false (textCursor d) (shown d).
Definition setTextColor_WHITE_BLACK (d : Display) : Display :=
  mkDisplay (textSize d) true (textCursor d) (shown d).
Definition print (it : Item) (d : Display) : Display :=
  mkDisplay (textSize d) (textInverse d) (textCursor d)
    (shown d ++ [mkToken it (textInverse d)]).
Definition println (it : Item) (d : Display) : Display :=
  print ItNewline (print it d).
(** [display.display()] sends the buffer to the screen. *)
Definition display_display (d : Display) : Display := d.

(** A counted [for] loop over the given indices, on any state. *)
Fixpoint for_each_in {S : Type} (body : Z → S → option S) (idx : list Z)
    (x : S) : option S :=
  match idx with
  | [] => Some x
  | i :: idx' => x' ← body i x; for_each_in body idx' x'
  end.

(** [void displayTimes()]; the loop index stays in 0..5, so [i + 1],
    [2*i] and [2*i+1] cannot overflow. *)
Definition displayTimes (s : State) (d : Display) : option Display :=
  let d1 := setCursor 0 0 (setTextSize 1 (clearDisplay d)) in
  d2 ← for_each_in
         (λ (i : Z) (d' : Display),
            array_get (pumpActive s) i ≫= λ active : bool,
            let d' := if active then setTextColor_WHITE_BLACK d'
                      else setTextColor_BLACK d' in
            let d' := print (ItText "P"%string) d' in
            let d' := print (ItNumber (i + 1)) d' in
            let d' := setTextColor_BLACK d' in
            let d' := print (ItText ": "%string) d' in
            let d' := if (cursorPos s =? 2 * i) && blinker s
                      then setTextColor_WHITE_BLACK d' else d' in
            let d' := print (ItNumber (c_div (Properties_getInt i s) 60)) d' in
            let d' := setTextColor_BLACK d' in
            let d' := print (ItText "h "%string) d' in
            let d' := if (cursorPos s =? 2 * i + 1) && blinker s
                      then setTextColor_WHITE_BLACK d' else d' in
            let d' := print (ItNumber (c_rem (Properties_getInt i s) 60)) d' in
            let d' := setTextColor_BLACK d' in
            Some (println (ItText "min"%string) d'))
         (seqZ 0 6) d1;
  Some (display_display d2).

(** [void displayRuntime()] *)
Definition displayRuntime (s : State) (d : Display) : option Display :=
  let d := setCursor 0 0 (setTextSize 1 (clearDisplay d)) in
  let d := setTextColor_BLACK d in
  let d := println (ItText "Runtime:"%string) d in
  let d := if (cursorPos s =? 12) && blinker s
           then setTextColor_WHITE_BLACK d else d in
  let d := print (ItNumber (c_div (Properties_getInt 6 s) 60)) d in
  let d := setTextColor_BLACK d in
  let d := print (ItText "h "%string) d in
  let d := if (cursorPos s =? 13) && blinker s
           then setTextColor_WHITE_BLACK d else d in
  let d := print (ItNumber (c_rem (Properties_getInt 6 s) 60)) d in
  let d := setTextColor_BLACK d in
  let d := println (ItText "min"%string) d in
  Some (display_display d).

(** The drawing at the end of [void loop()]: page 1 or page 2. *)
Definition loop_draw (s : State) (d : Display) : option Display :=
  if cursorPos s <? 12 then displayTimes s d else displayRuntime s d.

(** [void loop()]: the events dispatched by [timer.update()] and
    [ButtonEvent.loop()] in this iteration, then the drawing. *)
Definition loop (dispatched : list Event) (sd : State * Display)
    : option (State * Display) :=
  s' ← run dispatched sd.1;
  d' ← loop_draw s' sd.2;
  Some (s', d').

(** ** The basic sequencer

    The second sketch of the file: no float switch, no buttons and no
    stored configuration; [setup()] schedules the six pumps at fixed
    delays and every pump runs for a fixed time. *)

Module Basic.

Definition SEC2MILLI : Z := 1000.

Definition DELAYS : list Z :=
  [0; 1 * MIN2MILLI; 2 * MIN2MILLI; 3 * MIN2MILLI; 4 * MIN2MILLI;
   5 * MIN2MILLI].
Definition pumpRunTime : Z := 30 * SEC2MILLI.

Inductive Callback := CbStartPump | CbStopPump.

#[global] Instance Callback_eq_dec : EqDecision Callback.
Proof. solve_decision. Defined.

(** The globals, the pending timer entries (delay and callback, in
    registration order) and the levels written to the pins. *)
Record State := mkState {
  initPumpNo : Z;
  currentPumpNo : Z;
  timer : list (Z * Callback);
  pinLevel : gmap Z bool
}.

Definition timer_after (duration : Z) (cb : Callback) (s : State) : State :=
  mkState (initPumpNo s) (currentPumpNo s)
    (timer s ++ [(to_ulong duration, cb)]) (pinLevel s).
Definition digitalWrite (pin : Z) (level : bool) (s : State) : State :=
  mkState (initPumpNo s) (currentPumpNo s) (timer s)
    (<[pin := level]> (pinLevel s)).

(** [void setup()] *)
Definition setup : option State :=
  for_each_in
    (λ (i : Z) (s : State),
       array_get DELAYS i ≫= λ delay : Z,
       Some (timer_after delay CbStartPump s))
    (seqZ 0 6) (mkState 0 0 [] ∅).

(** [void startPump()] *)
Definition startPump (s : State) : option State :=
  array_get PUMP_PINS (initPumpNo s) ≫= λ pin : Z,
  let s1 := digitalWrite pin true s in
  let s2 := timer_after pumpRunTime CbStopPump s1 in
  Some (mkState (wrap16 (initPumpNo s2 + 1)) (currentPumpNo s2) (timer s2)
          (pinLevel s2)).

(** [void stopPump()] *)
Definition stopPump (s : State) : option State :=
  array_get PUMP_PINS (currentPumpNo s) ≫= λ pin : Z,
  let s1 := digitalWrite pin false s in
  Some (mkState (initPumpNo s1) (wrap16 (currentPumpNo s1 + 1)) (timer s1)
          (pinLevel s1)).

Definition run_callback (cb : Callback) (s : State) : option State :=
  match cb with
  | CbStartPump => startPump s
  | CbStopPump => stopPump s
  end.

(** [timer.update()] finds entry [k] due: its callback runs and the
    entry, being single shot, is dropped; with no such entry nothing is
    due. *)
Definition timer_fire (k : nat) (s : State) : option State :=
  match timer s !! k with
  | None => Some s
  | Some ev =>
      run_callback ev.2 s ≫= λ s1 : State,
      Some (mkState (initPumpNo s1) (currentPumpNo s1)
              (delete k (timer s1)) (pinLevel s1))
  end.

(** [void loop()], once per entry of [due]. *)
Fixpoint run (due : list nat) (s : State) : option State :=
  match due with
  | [] => Some s
  | k :: due' => timer_fire k s ≫= run due'
  end.

(** The number of pending entries with callback [cb]. *)
Fixpoint count_cb (cb : Callback) (l : list (Z * Callback)) : Z :=
  match l with
  | [] => 0
  | ev :: l' => (if bool_decide (ev.2 = cb) then 1 else 0) + count_cb cb l'
  end.

(** The level of a pin; a pin never written is low. *)
Definition pin_is_high (s : State) (pin : Z) : bool :=
  default false (pinLevel s !! pin).

(** The pumps started and not yet stopped are those from
    [currentPumpNo] up to [initPumpNo]; the start callbacks pending are
    those of the pumps not started, the stop callbacks pending those of
    the pumps running. *)
Definition window_inv (s : State) : Prop :=
  initPumpNo s + count_cb CbStartPump (timer s) = 6
  ∧ currentPumpNo s + count_cb CbStopPump (timer s) = initPumpNo s
  ∧ 0 <= currentPumpNo s
  ∧ ∀ (i : nat) pin,
      PUMP_PINS !! i = Some pin →
      pin_is_high s pin
      = bool_decide (currentPumpNo s <= Z.of_nat i < initPumpNo s).

End Basic.

(** ** Properties of states and of runs *)

(** The entries [setupPumps] registers: one start callback per pump, at
    the pump's configured offset. *)
Definition start_events (s : State) : list TimerEvent :=
  (λ i, mkTimerEvent (to_ulong (Properties_getInt i s * MIN2MILLI)) false
          CbStartPump) <$> seqZ 0 6.

(** The entry [startPump(int)] registers: the stop callback, after the
    configured runtime. *)
Definition stop_event (s : State) : TimerEvent :=
  mkTimerEvent (to_ulong (Properties_getInt 6 s * MIN2MILLI)) false CbStopPump.

(** What the loop at the end of [startPump(int)] leaves in [pumpActive]
    and on the pins: every visited index other than [keep] is cleared. *)
Definition clear_flags (keep : Z) (idx : list Z) (l : list bool) : list bool :=
  foldl (λ l' i, if bool_decide (i ≠ keep) then <[Z.to_nat i := false]> l'
                 else l') l idx.
Definition clear_pins (keep : Z) (idx : list Z) (m : gmap Z bool)
    : gmap Z bool :=
  foldl (λ m' i, if bool_decide (i ≠ keep) then <[8 + i := false]> m' else m')
    m idx.

(** At most one pump is flagged active. *)
Definition at_most_one_active (s : State) : Prop :=
  ∀ i j : nat,
    pumpActive s !! i = Some true → pumpActive s !! j = Some true → i = j.

(** [pumpActive] keeps its declared length, and at most one flag is set. *)
Definition pumps_inv (s : State) : Prop :=
  length (pumpActive s) = 6%nat ∧ at_most_one_active s.

(** Before the first arming nothing has been stopped or started: no stop
    callback is pending, [currentPumpNo] is still 0 and no pump is
    flagged. *)
Definition idle_inv (s : State) : Prop :=
  running s = false →
  currentPumpNo s = 0 ∧ pumpActive s = replicate 6 false
  ∧ ∀ ev, ev ∈ timer s → callback ev ≠ CbStopPump.

(** The invariant of the whole engine. *)
Definition engine_inv (s : State) : Prop := pumps_inv s ∧ idle_inv s.

(** A sequence of [modify(index, delta)] calls, oldest first. *)
Definition modify_all (calls : list (Z * Z)) (s : State) : State :=
  foldl (λ s' c, modify c.1 c.2 s') s calls.

(** The events that move the cursor. *)
Definition cursor_move (e : Event) : bool :=
  match e with
  | EvIncrementCursor | EvDecrementCursor => true
  | _ => false
  end.

(** The delta of an edit at cursor position [v]: hours on even positions,
    minutes on odd ones, nine steps at once on a hold, negated for the
    down button. *)
Definition edit_delta (hold up : bool) (v : Z) : Z :=
  (if up then 1 else -1)
  * (if Z.even v then (if hold then 540 else 60) else (if hold then 9 else 1)).

(** The property "a start or stop callback that fires while [running] is
    false changes no engine state", over the states the sketch reaches. *)
Definition stale_callbacks_are_noops : Prop :=
  ∀ stored loaded evs s k ev s',
    run evs (setup stored loaded) = Some s →
    running s = false →
    timer s !! k = Some ev →
    callback ev = CbStartPump ∨ callback ev = CbStopPump →
    run_callback (callback ev) s = Some s' →
    pumpActive s' = pumpActive s ∧ pinLevel s' = pinLevel s
    ∧ initPumpNo s' = initPumpNo s ∧ currentPumpNo s' = currentPumpNo s.

(** The events that edit the configuration. *)
Definition is_edit (e : Event) : bool :=
  match e with
  | EvChangeVal _ | EvBigChangeVal _ => true
  | _ => false
  end.

(** The level of a digital output; a pin never written is low. *)
Definition pin_is_high (s : State) (pin : Z) : bool :=
  default false (pinLevel s !! pin).

(** Every pump pin carries the level its [pumpActive] flag says. *)
Definition outputs_match_flags (s : State) : Prop :=
  ∀ (i : nat) pin,
    PUMP_PINS !! i = Some pin →
    pin_is_high s pin = default false (pumpActive s !! i).

(** The number of pending timer entries with callback [cb]. *)
Fixpoint count_cb (cb : Callback) (l : list TimerEvent) : Z :=
  match l with
  | [] => 0
  | ev :: l' => (if bool_decide (callback ev = cb) then 1 else 0) + count_cb cb l'
  end.

(** The bookkeeping of a schedule that no commit has disturbed: the start
    callbacks still pending are those of the pumps not started yet, the
    stop callbacks still pending those of the pumps started and not yet
    retired, and only the pump started last can be flagged. *)
Definition undisturbed (s : State) : Prop :=
  reqRestart s = false
  ∧ length (pumpActive s) = 6%nat
  ∧ (∀ ev, ev ∈ timer s → callback ev ≠ CbBlink → repeats ev = false)
  ∧ initPumpNo s + count_cb CbStartPump (timer s)
    = (if running s then 6 else 0)
  ∧ currentPumpNo s + count_cb CbStopPump (timer s) = initPumpNo s
  ∧ 0 <= currentPumpNo s
  ∧ (∀ i : nat,
       pumpActive s !! i = Some true → Z.of_nat i = initPumpNo s - 1).

(** The row of page 1 for pump [i]: label, hours and minutes. *)
Definition times_row (s : State) (i : Z) : list Token :=
  let active := default false (pumpActive s !! Z.to_nat i) in
  [ mkToken (ItText "P"%string) active;
    mkToken (ItNumber (i + 1)) active;
    mkToken (ItText ": "%string) false;
    mkToken (ItNumber (c_div (Properties_getInt i s) 60))
      ((cursorPos s =? 2 * i) && blinker s);
    mkToken (ItText "h "%string) false;
    mkToken (ItNumber (c_rem (Properties_getInt i s) 60))
      ((cursorPos s =? 2 * i + 1) && blinker s);
    mkToken (ItText "min"%string) false;
    mkToken ItNewline false ].

(** Page 2. *)
Definition runtime_page (s : State) : list Token :=
  [ mkToken (ItText "Runtime:"%string) false;
    mkToken ItNewline false;
    mkToken (ItNumber (c_div (Properties_getInt 6 s) 60))
      ((cursorPos s =? 12) && blinker s);
    mkToken (ItText "h "%string) false;
    mkToken (ItNumber (c_rem (Properties_getInt 6 s) 60))
      ((cursorPos s =? 13) && blinker s);
    mkToken (ItText "min"%string) false;
    mkToken ItNewline false ].

(** Where the digit addressed by cursor position [c] is drawn on its
    page, and what it shows. *)
Definition digit_token (c : Z) : nat :=
  if c <? 12 then Z.to_nat (8 * (c `div` 2) + 3 + 2 * (c `mod` 2))
  else Z.to_nat (2 + 2 * (c - 12)).
Definition digit_value (s : State) (c : Z) : Z :=
  if Z.even c then c_div (Properties_getInt (c `div` 2) s) 60
  else c_rem (Properties_getInt (c `div` 2) s) 60.

(** The number printed as token [k], if token [k] is a number. *)
Definition shown_number (d : Display) (k : nat) : option Z :=
  match shown d !! k with
  | Some (mkToken (ItNumber z) _) => Some z
  | _ => None
  end.

(** ** Inputs used in the examples *)

(** Offsets 0..5 minutes and a runtime of one minute. *)
Definition example_config : gmap Z Z :=
  list_to_map [(0, 0); (1, 1); (2, 2); (3, 3); (4, 4); (5, 5); (6, 1)].

(** Offsets 0, 3, ..., 15 minutes and a runtime of one minute: every pump
    is stopped by its own stop callback before the next one starts. *)
Definition spaced_config : gmap Z Z :=
  list_to_map [(0, 0); (1, 3); (2, 6); (3, 9); (4, 12); (5, 15); (6, 1)].

(** Water is detected and the six pumps run one after the other, each
    start callback followed by its stop callback. *)
Definition first_sequence : list Event :=
  [EvUnderWater; EvTimer 1; EvTimer 6; EvTimer 1; EvTimer 5; EvTimer 1;
   EvTimer 4; EvTimer 1; EvTimer 3; EvTimer 1; EvTimer 2; EvTimer 1;
   EvTimer 1].

(** One edit and a full turn of the cursor: the commit path. *)
Definition edit_and_commit : list Event :=
  EvChangeVal upBtn :: replicate 14 EvIncrementCursor.

(** ** Elementary facts about the procedures *)

Lemma array_get_PUMP_PINS i pin :
  array_get PUMP_PINS i = Some pin ↔ 0 <= i < 6 ∧ pin = 8 + i.
Proof.
  unfold array_get. case_bool_decide as Hi.
  - split.
    + intros H. assert (Z.to_nat i < 6)%nat as Hlt.
      { apply lookup_lt_Some in H. exact H. }
      assert (i = 0 ∨ i = 1 ∨ i = 2 ∨ i = 3 ∨ i = 4 ∨ i = 5) as Hc by lia.
      destruct Hc as [->|[->|[->|[->|[->| ->]]]]];
        cbn in H; inversion H; lia.
    + intros [Hr ->].
      assert (i = 0 ∨ i = 1 ∨ i = 2 ∨ i = 3 ∨ i = 4 ∨ i = 5) as Hc by lia.
      destruct Hc as [->|[->|[->|[->|[->| ->]]]]]; reflexivity.
  - split; [discriminate | lia].
Qed.

(** Unfold the setters and projections of [State], nothing else. *)
Ltac st_simpl :=
  unfold Properties_getInt, Properties_set, Properties_save, timer_after,
    timer_every, digitalWrite, pinMode_OUTPUT, displayBig in *;
  unfold set_running, set_reqRestart, set_cursorPos, set_blinker,
    set_initPumpNo, set_currentPumpNo, set_pumpActive, set_properties,
    set_timer, set_pinLevel, set_pinOutput, set_screen in *;
  cbn [error running reqRestart cursorPos blinker initPumpNo currentPumpNo
       pumpActive properties timer pinLevel pinOutput screen] in *.

(** The same on the goal only. *)
Ltac st_simpl_goal :=
  cbn [error running reqRestart cursorPos blinker initPumpNo currentPumpNo
       pumpActive properties timer pinLevel pinOutput screen
       set_running set_reqRestart set_cursorPos set_blinker set_initPumpNo
       set_currentPumpNo set_pumpActive set_properties set_timer
       set_pinLevel set_pinOutput set_screen
       Properties_set Properties_save timer_after timer_every digitalWrite
       pinMode_OUTPUT displayBig];
  unfold Properties_getInt;
  cbn [error running reqRestart cursorPos blinker initPumpNo currentPumpNo
       pumpActive properties timer pinLevel pinOutput screen
       set_running set_reqRestart set_cursorPos set_blinker set_initPumpNo
       set_currentPumpNo set_pumpActive set_properties set_timer
       set_pinLevel set_pinOutput set_screen
       Properties_set Properties_save timer_after timer_every digitalWrite
       pinMode_OUTPUT displayBig].

Lemma schedule_loop idx : ∀ s,
  (∀ i, i ∈ idx → 0 <= i < 6) →
  for_each
    (λ i s',
       pin ← array_get PUMP_PINS i;
       Some (timer_after (Properties_getInt i s' * MIN2MILLI) CbStartPump
               (pinMode_OUTPUT pin s')))
    idx s
  = Some (set_pinOutput (list_to_set ((λ i, 8 + i) <$> idx) ∪ pinOutput s)
            (set_timer
               (timer s ++
                ((λ i, mkTimerEvent
                         (to_ulong (Properties_getInt i s * MIN2MILLI))
                         false CbStartPump) <$> idx)) s)).
Proof.
  induction idx as [|i idx IH]; intros s Hidx.
  - destruct s; cbn [for_each fmap list_fmap list_to_set foldr]; st_simpl.
    f_equal. f_equal; [by rewrite app_nil_r | by rewrite (left_id_L ∅ (∪))].
  - cbn [for_each].
    assert (array_get PUMP_PINS i = Some (8 + i)) as ->.
    { apply array_get_PUMP_PINS. split; [apply Hidx; left | done]. }
    cbn [mbind option_bind]. rewrite IH.
    + destruct s; st_simpl. rewrite !fmap_cons, list_to_set_cons.
      f_equal. f_equal; [by rewrite <- app_assoc |].
      apply set_eq; intros x; rewrite !elem_of_union; tauto.
    + intros j Hj. apply Hidx. by right.
Qed.

Lemma seqZ_0_6_range i : i ∈ seqZ 0 6 → 0 <= i < 6.
Proof. rewrite elem_of_seqZ. lia. Qed.

Lemma setupPumps_eq s :
  setupPumps s
  = Some (set_initPumpNo 0
            (set_pinOutput (list_to_set PUMP_PINS ∪ pinOutput s)
               (set_timer (timer s ++ start_events s) s))).
Proof.
  unfold setupPumps. rewrite schedule_loop by apply seqZ_0_6_range.
  reflexivity.
Qed.

Lemma length_clear_flags keep idx : ∀ l,
  length (clear_flags keep idx l) = length l.
Proof.
  unfold clear_flags.
  induction idx as [|i idx IH]; intros l; cbn [foldl]; [done|].
  rewrite IH. case_bool_decide; [apply length_insert | done].
Qed.

Lemma stopPump_at_eq i s :
  0 <= i < Z.of_nat (length (pumpActive s)) → i < 6 →
  stopPump_at i s
  = Some (set_pumpActive (<[Z.to_nat i := false]> (pumpActive s))
            (digitalWrite (8 + i) false s)).
Proof.
  intros Hi Hi6. unfold stopPump_at.
  assert (array_get PUMP_PINS i = Some (8 + i)) as ->.
  { apply array_get_PUMP_PINS. lia. }
  cbn [mbind option_bind]. unfold array_set. st_simpl.
  by rewrite bool_decide_eq_true_2.
Qed.

Lemma stopPump_at_out_of_bounds i s : ¬ (0 <= i < 6) → stopPump_at i s = None.
Proof.
  intros Hi. unfold stopPump_at.
  destruct (array_get PUMP_PINS i) as [pin|] eqn:E; [|done].
  apply array_get_PUMP_PINS in E. lia.
Qed.

Lemma stop_loop keep idx : ∀ s,
  (∀ i, i ∈ idx → 0 <= i < 6) → length (pumpActive s) = 6%nat →
  for_each
    (λ i s', if bool_decide (i ≠ keep) then stopPump_at i s' else Some s')
    idx s
  = Some (set_pumpActive (clear_flags keep idx (pumpActive s))
            (set_pinLevel (clear_pins keep idx (pinLevel s)) s)).
Proof.
  induction idx as [|i idx IH]; intros s Hidx Hlen.
  - by destruct s.
  - cbn [for_each clear_flags clear_pins foldl].
    assert (0 <= i < 6) as Hi by (apply Hidx; left).
    case_bool_decide.
    + rewrite stopPump_at_eq by lia. cbn [mbind option_bind].
      rewrite IH.
      * by destruct s.
      * intros j Hj. apply Hidx. by right.
      * st_simpl. by rewrite length_insert.
    + cbn [mbind option_bind]. apply IH; [|done].
      intros j Hj. apply Hidx. by right.
Qed.

Lemma startPump_at_running pumpNo s :
  running s = true → 0 <= pumpNo < 6 → length (pumpActive s) = 6%nat →
  startPump_at pumpNo s
  = Some (set_pumpActive
            (clear_flags pumpNo (seqZ 0 6)
               (<[Z.to_nat pumpNo := true]> (pumpActive s)))
            (set_pinLevel
               (clear_pins pumpNo (seqZ 0 6)
                  (<[8 + pumpNo := true]> (pinLevel s)))
               (set_timer (timer s ++ [stop_event s]) s))).
Proof.
  intros Hrun Hp Hlen. unfold startPump_at. rewrite Hrun.
  assert (array_get PUMP_PINS pumpNo = Some (8 + pumpNo)) as ->.
  { apply array_get_PUMP_PINS. lia. }
  cbn [mbind option_bind]. unfold array_set.
  rewrite bool_decide_eq_true_2 by (st_simpl; lia).
  cbn [mbind option_bind].
  rewrite stop_loop.
  - by destruct s.
  - apply seqZ_0_6_range.
  - st_simpl. by rewrite length_insert.
Qed.

Lemma startPump_at_idle pumpNo s :
  running s = false → startPump_at pumpNo s = Some s.
Proof. intros Hrun. unfold startPump_at. by rewrite Hrun. Qed.

Lemma startPump_at_out_of_bounds pumpNo s :
  running s = true → ¬ (0 <= pumpNo < 6) → startPump_at pumpNo s = None.
Proof.
  intros Hrun Hp. unfold startPump_at. rewrite Hrun.
  destruct (array_get PUMP_PINS pumpNo) as [pin|] eqn:E; [|done].
  apply array_get_PUMP_PINS in E. lia.
Qed.

(** After the loop of [startPump(int)] exactly the started pump is
    flagged. *)
Lemma clear_flags_only pumpNo (l : list bool) :
  0 <= pumpNo < 6 → length l = 6%nat →
  clear_flags pumpNo (seqZ 0 6) (<[Z.to_nat pumpNo := true]> l)
  = <[Z.to_nat pumpNo := true]> (replicate 6 false).
Proof.
  intros Hp Hlen.
  destruct l as [|a [|b [|c [|d [|e [|f [|g l]]]]]]]; try discriminate.
  assert (pumpNo = 0 ∨ pumpNo = 1 ∨ pumpNo = 2 ∨ pumpNo = 3 ∨ pumpNo = 4
          ∨ pumpNo = 5) as Hc by lia.
  destruct Hc as [->|[->|[->|[->|[->| ->]]]]]; reflexivity.
Qed.

(** ** Closed forms of the handlers *)

Lemma underWater_eq s :
  underWater s
  = Some (displayBig "Started"
            (if running s then s
             else set_initPumpNo 0
                    (set_pinOutput (list_to_set PUMP_PINS ∪ pinOutput s)
                       (set_timer (timer s ++ start_events s)
                          (set_running true s))))).
Proof.
  unfold underWater. destruct (running s) eqn:E; cbn [negb]; [done|].
  by rewrite setupPumps_eq.
Qed.

Lemma saveAndRestart_eq s :
  saveAndRestart s
  = Some (set_initPumpNo 0
            (set_pinOutput (list_to_set PUMP_PINS ∪ pinOutput s)
               (set_timer (timer s ++ start_events s)
                  (displayBig ("Saving" ++ String "010"%char "Config")%string
                     s)))).
Proof. unfold saveAndRestart. by rewrite setupPumps_eq. Qed.

Lemma incrementCursor_eq s :
  incrementCursor s
  = let s1 := set_cursorPos (c_rem (wrap16 (cursorPos s + 1)) 14) s in
    if (cursorPos s1 =? 0) && reqRestart s
    then saveAndRestart s1 else Some s1.
Proof. reflexivity. Qed.

(** ** Invariants of the control loop *)

Lemma run_app evs1 : ∀ evs2 s,
  run (evs1 ++ evs2) s = s' ← run evs1 s; run evs2 s'.
Proof.
  induction evs1 as [|e evs1 IH]; intros evs2 s; [done|].
  cbn [app run]. destruct (step e s) as [s1|]; cbn [mbind option_bind]; auto.
Qed.

Lemma run_invariant (P : State → Prop) :
  (∀ e s s', P s → step e s = Some s' → P s') →
  ∀ evs s s', P s → run evs s = Some s' → P s'.
Proof.
  intros Hstep. induction evs as [|e evs IH]; intros s s' HP Hrun.
  - cbn in Hrun. by inversion Hrun; subst.
  - cbn [run] in Hrun. destruct (step e s) as [s1|] eqn:E; [|done].
    cbn [mbind option_bind] in Hrun. eapply IH; [|exact Hrun].
    eapply Hstep; eauto.
Qed.

Lemma at_most_one_only (i : nat) :
  ∀ a b : nat,
    <[i := true]> (replicate 6 false) !! a = Some true →
    <[i := true]> (replicate 6 false) !! b = Some true → a = b.
Proof.
  assert (∀ a : nat,
            <[i := true]> (replicate 6 false) !! a = Some true → a = i) as H.
  { intros a Ha. destruct (decide (a = i)) as [|Hne]; [done|].
    rewrite list_lookup_insert_ne in Ha by done.
    apply lookup_replicate in Ha as [? _]. done. }
  intros a b Ha Hb. rewrite (H a Ha), (H b Hb). done.
Qed.

Lemma at_most_one_clear (l : list bool) (i : nat) :
  (∀ a b : nat, l !! a = Some true → l !! b = Some true → a = b) →
  ∀ a b : nat,
    <[i := false]> l !! a = Some true → <[i := false]> l !! b = Some true →
    a = b.
Proof.
  assert (∀ a : nat, <[i := false]> l !! a = Some true → l !! a = Some true)
    as H.
  { intros a Ha. destruct (decide (a = i)) as [->|Hne].
    - destruct (decide (i < length l)%nat) as [Hlt|Hge].
      + rewrite list_lookup_insert_eq in Ha by done. done.
      + rewrite list_insert_ge in Ha by lia. done.
    - by rewrite list_lookup_insert_ne in Ha. }
  intros Hl a b Ha Hb. apply Hl; by apply H.
Qed.

Lemma startPump_pumps_inv s s' :
  pumps_inv s → startPump s = Some s' → pumps_inv s'.
Proof.
  intros [Hlen Hone] H. unfold startPump in H.
  destruct (running s) eqn:Hrun.
  - destruct (decide (0 <= initPumpNo s < 6)) as [Hin|Hout].
    + rewrite startPump_at_running in H by done.
      cbn [mbind option_bind] in H. apply (inj Some) in H; subst s'.
      unfold pumps_inv, at_most_one_active. st_simpl.
      rewrite clear_flags_only by done. split.
      * by rewrite length_insert, length_replicate.
      * apply at_most_one_only.
    + by rewrite startPump_at_out_of_bounds in H.
  - rewrite startPump_at_idle in H by done.
    cbn [mbind option_bind] in H. apply (inj Some) in H; subst s'.
    split; assumption.
Qed.

Lemma stopPump_pumps_inv s s' :
  pumps_inv s → stopPump s = Some s' → pumps_inv s'.
Proof.
  intros [Hlen Hone] H. unfold stopPump in H.
  destruct (decide (0 <= currentPumpNo s < 6)) as [Hin|Hout].
  - rewrite stopPump_at_eq in H by lia.
    cbn [mbind option_bind] in H. apply (inj Some) in H; subst s'.
    unfold pumps_inv, at_most_one_active. st_simpl. split.
    + by rewrite length_insert.
    + by apply at_most_one_clear.
  - by rewrite stopPump_at_out_of_bounds in H.
Qed.

Lemma step_pumps_inv e s s' :
  pumps_inv s → step e s = Some s' → pumps_inv s'.
Proof.
  intros Hinv H. destruct e; cbn [step] in H.
  - rewrite underWater_eq in H. apply (inj Some) in H; subst s'.
    by destruct (running s).
  - apply (inj Some) in H; subst s'. exact Hinv.
  - rewrite incrementCursor_eq in H. cbv zeta in H.
    destruct (_ && _) in H.
    + rewrite saveAndRestart_eq in H. apply (inj Some) in H; subst s'.
      exact Hinv.
    + apply (inj Some) in H; subst s'. exact Hinv.
  - apply (inj Some) in H; subst s'. exact Hinv.
  - unfold changeVal in H.
    repeat destruct (_ =? _) in H; apply (inj Some) in H; subst s'; exact Hinv.
  - unfold bigChangeVal in H.
    repeat destruct (_ =? _) in H; apply (inj Some) in H; subst s'; exact Hinv.
  - unfold timer_fire in H. destruct (timer s !! k) as [ev|]; cycle 1.
    { inversion H; subst. exact Hinv. }
    destruct (run_callback (callback ev) s) as [s1|] eqn:E; [|done].
    cbn [mbind option_bind] in H.
    assert (pumps_inv s1) as Hs1.
    { destruct (callback ev); cbn [run_callback] in E.
      - eapply startPump_pumps_inv; eauto.
      - eapply stopPump_pumps_inv; eauto.
      - inversion E; subst. exact Hinv. }
    apply (inj Some) in H; subst s'. by destruct (repeats ev).
Qed.

Lemma setup_pumps_inv stored loaded : pumps_inv (setup stored loaded).
Proof.
  split; [reflexivity|].
  intros i j Hi Hj. cbn in Hi.
  do 6 (destruct i as [|i]; [discriminate|]). discriminate.
Qed.

Lemma startPump_eq_idle s :
  running s = false →
  startPump s = Some (set_initPumpNo (wrap16 (initPumpNo s + 1)) s).
Proof. intros Hrun. unfold startPump. by rewrite startPump_at_idle. Qed.

Lemma startPump_eq_running s :
  running s = true → 0 <= initPumpNo s < 6 → length (pumpActive s) = 6%nat →
  startPump s
  = Some (set_initPumpNo (wrap16 (initPumpNo s + 1))
            (set_pumpActive
               (<[Z.to_nat (initPumpNo s) := true]> (replicate 6 false))
               (set_pinLevel
                  (clear_pins (initPumpNo s) (seqZ 0 6)
                     (<[8 + initPumpNo s := true]> (pinLevel s)))
                  (set_timer (timer s ++ [stop_event s]) s)))).
Proof.
  intros Hrun Hin Hlen. unfold startPump.
  rewrite startPump_at_running, clear_flags_only by done. reflexivity.
Qed.

Lemma startPump_out_of_bounds s :
  running s = true → ¬ (0 <= initPumpNo s < 6) → startPump s = None.
Proof.
  intros Hrun Hout. unfold startPump.
  by rewrite startPump_at_out_of_bounds.
Qed.

Lemma stopPump_eq s :
  0 <= currentPumpNo s < 6 → length (pumpActive s) = 6%nat →
  stopPump s
  = Some (set_currentPumpNo (wrap16 (currentPumpNo s + 1))
            (set_pumpActive
               (<[Z.to_nat (currentPumpNo s) := false]> (pumpActive s))
               (digitalWrite (8 + currentPumpNo s) false s))).
Proof.
  intros Hin Hlen. unfold stopPump. rewrite stopPump_at_eq by lia.
  reflexivity.
Qed.

Lemma stopPump_out_of_bounds s :
  ¬ (0 <= currentPumpNo s < 6) → stopPump s = None.
Proof.
  intros Hout. unfold stopPump. by rewrite stopPump_at_out_of_bounds.
Qed.

(** [running] is never cleared. *)
Lemma step_running e s s' :
  pumps_inv s → running s = true → step e s = Some s' → running s' = true.
Proof.
  intros [Hlen _] Hrun H. destruct e; cbn [step] in H.
  - rewrite underWater_eq, Hrun in H. by apply (inj Some) in H; subst s'.
  - by apply (inj Some) in H; subst s'.
  - rewrite incrementCursor_eq in H. cbv zeta in H.
    destruct (_ && _) in H.
    + rewrite saveAndRestart_eq in H. by apply (inj Some) in H; subst s'.
    + by apply (inj Some) in H; subst s'.
  - by apply (inj Some) in H; subst s'.
  - unfold changeVal in H.
    repeat destruct (_ =? _) in H; by apply (inj Some) in H; subst s'.
  - unfold bigChangeVal in H.
    repeat destruct (_ =? _) in H; by apply (inj Some) in H; subst s'.
  - unfold timer_fire in H. destruct (timer s !! k) as [ev|]; cycle 1.
    { by apply (inj Some) in H; subst s'. }
    destruct (run_callback (callback ev) s) as [s1|] eqn:E; [|done].
    cbn [mbind option_bind] in H.
    assert (running s1 = true) as Hs1.
    { destruct (callback ev); cbn [run_callback] in E.
      - destruct (decide (0 <= initPumpNo s < 6)) as [Hin|Hout].
        + rewrite startPump_eq_running in E by done.
          by apply (inj Some) in E; subst s1.
        + by rewrite startPump_out_of_bounds in E.
      - destruct (decide (0 <= currentPumpNo s < 6)) as [Hin|Hout].
        + rewrite stopPump_eq in E by done.
          by apply (inj Some) in E; subst s1.
        + by rewrite stopPump_out_of_bounds in E.
      - by apply (inj Some) in E; subst s1. }
    apply (inj Some) in H; subst s'. by destruct (repeats ev).
Qed.

Lemma start_events_callback s ev :
  ev ∈ start_events s → callback ev = CbStartPump.
Proof.
  unfold start_events. intros H.
  apply list_elem_of_fmap in H as (i & -> & _). reflexivity.
Qed.

Lemma step_idle_inv e s s' :
  pumps_inv s → idle_inv s → step e s = Some s' → idle_inv s'.
Proof.
  intros Hpumps Hidle H Hrun'.
  destruct (running s) eqn:Hrun.
  { by rewrite (step_running e s s') in Hrun'. }
  destruct (Hidle Hrun) as (Hcur & Hact & Htim).
  destruct e; cbn [step] in H.
  - rewrite underWater_eq, Hrun in H. by apply (inj Some) in H; subst s'.
  - by apply (inj Some) in H; subst s'.
  - rewrite incrementCursor_eq in H. cbv zeta in H.
    destruct (_ && _) in H.
    + rewrite saveAndRestart_eq in H. apply (inj Some) in H; subst s'.
      st_simpl. repeat split; try done.
      intros ev [Hev|Hev]%elem_of_app; [by apply Htim|].
      by rewrite (start_events_callback _ _ Hev).
    + by apply (inj Some) in H; subst s'.
  - by apply (inj Some) in H; subst s'.
  - unfold changeVal in H.
    repeat destruct (_ =? _) in H; by apply (inj Some) in H; subst s'.
  - unfold bigChangeVal in H.
    repeat destruct (_ =? _) in H; by apply (inj Some) in H; subst s'.
  - unfold timer_fire in H. destruct (timer s !! k) as [ev|] eqn:Ek; cycle 1.
    { by apply (inj Some) in H; subst s'. }
    assert (callback ev ≠ CbStopPump) as Hev.
    { apply Htim. eapply list_elem_of_lookup_2. exact Ek. }
    assert (∀ ev', ev' ∈ delete k (timer s) → callback ev' ≠ CbStopPump)
      as Hdel.
    { intros ev' Hin. apply Htim. by apply list_elem_of_delete_inv in Hin. }
    destruct (callback ev); cbn [run_callback] in H; [| done |].
    + rewrite startPump_eq_idle in H by done. cbn [mbind option_bind] in H.
      apply (inj Some) in H; subst s'. by destruct (repeats ev).
    + cbn [blink mbind option_bind] in H.
      apply (inj Some) in H; subst s'. by destruct (repeats ev).
Qed.

Lemma setup_engine_inv stored loaded : engine_inv (setup stored loaded).
Proof.
  split; [apply setup_pumps_inv|]. intros _. repeat split.
  intros ev Hev. cbn in Hev. apply list_elem_of_singleton in Hev.
  by subst ev.
Qed.

Lemma run_engine_inv evs s s' :
  engine_inv s → run evs s = Some s' → engine_inv s'.
Proof.
  apply (run_invariant engine_inv). clear.
  intros e s s' [Hp Hi] H. split.
  - eapply step_pumps_inv; eauto.
  - eapply step_idle_inv; eauto.
Qed.

(** ** Mutual exclusion *)

(** C1 - Mutual exclusion of actuators: after [setup()] and any sequence
    of float-switch, button and timer-callback events that the sketch
    survives, at most one of the six [pumpActive] flags is true. *)
Theorem mutual_exclusion stored loaded evs s :
  run evs (setup stored loaded) = Some s → at_most_one_active s.
Proof.
  intros H.
  destruct (run_engine_inv evs _ _ (setup_engine_inv stored loaded) H)
    as [[_ Hone] _].
  exact Hone.
Qed.

Lemma mutual_exclusion_witness :
  ∃ s, run [EvUnderWater; EvTimer 1; EvTimer 1] (setup example_config true)
       = Some s
       ∧ pumpActive s = [false; true; false; false; false; false]
       ∧ at_most_one_active s.
Proof.
  eexists. split; [vm_compute; reflexivity|]. split; [reflexivity|].
  apply (mutual_exclusion example_config true
           [EvUnderWater; EvTimer 1; EvTimer 1]).
  vm_compute. reflexivity.
Defined.

(** ** The configuration store *)

Lemma c_max_0_nonneg a : 0 <= c_max a 0.
Proof. unfold c_max. destruct (a >? 0) eqn:E; lia. Qed.

Lemma c_max_Zmax a b : c_max a b = Z.max a b.
Proof. unfold c_max. destruct (a >? b) eqn:E; lia. Qed.

Lemma wrap16_id z : -32768 <= z <= 32767 → wrap16 z = z.
Proof. intros Hz. unfold wrap16. rewrite Z.mod_small; lia. Qed.

Lemma modify_getInt_same index delta s :
  Properties_getInt index (modify index delta s)
  = c_max (wrap16 (Properties_getInt index s + delta)) 0.
Proof. unfold modify. st_simpl. by rewrite lookup_insert_eq. Qed.

Lemma modify_getInt_other index index' delta s :
  index ≠ index' →
  Properties_getInt index' (modify index delta s) = Properties_getInt index' s.
Proof. intros Hne. unfold modify. st_simpl. by rewrite lookup_insert_ne. Qed.

Lemma modify_reqRestart index delta s : reqRestart (modify index delta s) = true.
Proof. reflexivity. Qed.

Lemma modify_nonneg_preserved index index' delta s :
  0 <= Properties_getInt index' s →
  0 <= Properties_getInt index' (modify index delta s).
Proof.
  intros H. destruct (decide (index = index')) as [->|Hne].
  - rewrite modify_getInt_same. apply c_max_0_nonneg.
  - by rewrite modify_getInt_other.
Qed.

(** C6 - Non-negativity of configuration: a stored value that is
    non-negative, or that has been written by at least one [modify] call
    of the sequence, is non-negative after any sequence of [modify] calls
    with arbitrary indices and deltas; a single call stores
    [max(get(index) + delta, 0)], the sum taken in 16-bit [int]
    arithmetic and exact whenever it fits. *)
Theorem config_non_negative (s : State) (calls : list (Z * Z)) (index : Z) :
  bool_decide (0 <= Properties_getInt index s)
  || bool_decide (index ∈ calls.*1) = true →
  0 <= Properties_getInt index (modify_all calls s)
  ∧ ∀ delta,
      Properties_getInt index (modify index delta s)
      = Z.max (wrap16 (Properties_getInt index s + delta)) 0
      ∧ (-32768 <= Properties_getInt index s + delta <= 32767 →
         Properties_getInt index (modify index delta s)
         = Z.max (Properties_getInt index s + delta) 0).
Proof.
  intros H. split.
  - revert s H. unfold modify_all.
    induction calls as [|[i d] calls IH]; intros s H; cbn [foldl].
    + rewrite orb_true_iff, !bool_decide_eq_true in H.
      destruct H as [H|H]; [done | by apply elem_of_nil in H].
    + apply IH. rewrite orb_true_iff, !bool_decide_eq_true in *.
      cbn [fst snd]. destruct H as [H|H].
      * left. by apply modify_nonneg_preserved.
      * rewrite fmap_cons in H. cbn [fst] in H.
        apply elem_of_cons in H as [->|H]; [|by right].
        left. rewrite modify_getInt_same. apply c_max_0_nonneg.
  - intros delta. rewrite modify_getInt_same, c_max_Zmax. split; [done|].
    intros Hfit. by rewrite wrap16_id.
Qed.

Lemma config_non_negative_witness :
  0 <= Properties_getInt 1
         (modify_all [(1, -60); (0, 540); (1, 9)] (setup example_config true))
  ∧ Properties_getInt 1
      (modify_all [(1, -60); (0, 540); (1, 9)] (setup example_config true))
    = 9.
Proof.
  split; [|vm_compute; reflexivity].
  apply (config_non_negative (setup example_config true)
           [(1, -60); (0, 540); (1, 9)] 1).
  vm_compute. reflexivity.
Defined.

(** ** The editor cursor *)

Lemma incrementCursor_cursor s :
  0 <= cursorPos s < 14 →
  ∃ s', incrementCursor s = Some s'
        ∧ cursorPos s' = (cursorPos s + 1) mod 14
        ∧ reqRestart s' = reqRestart s.
Proof.
  intros Hc. rewrite incrementCursor_eq. cbv zeta.
  assert (c_rem (wrap16 (cursorPos s + 1)) 14 = (cursorPos s + 1) mod 14)
    as Hrem.
  { rewrite wrap16_id by lia. unfold c_rem. apply Z.rem_mod_nonneg; lia. }
  destruct (_ && _).
  - rewrite saveAndRestart_eq. eexists. split; [reflexivity|].
    st_simpl. by rewrite Hrem.
  - eexists. split; [reflexivity|]. st_simpl. by rewrite Hrem.
Qed.

Lemma decrementCursor_cursor s :
  0 <= cursorPos s < 14 →
  ∃ s', decrementCursor s = Some s'
        ∧ cursorPos s' = Z.max (cursorPos s - 2) 0.
Proof.
  intros Hc. eexists. split; [reflexivity|]. st_simpl.
  rewrite c_max_Zmax, wrap16_id by lia. reflexivity.
Qed.

Lemma cursor_moves_bound moves : ∀ s,
  0 <= cursorPos s < 14 → forallb cursor_move moves = true →
  ∃ s', run moves s = Some s' ∧ 0 <= cursorPos s' < 14.
Proof.
  induction moves as [|e moves IH]; intros s Hc Hm.
  - exists s. by split.
  - cbn [forallb] in Hm. apply andb_true_iff in Hm as [He Hm].
    assert (∃ s1, step e s = Some s1 ∧ 0 <= cursorPos s1 < 14)
      as (s1 & Hs1 & Hc1).
    { destruct e; try discriminate; cbn [step].
      - destruct (incrementCursor_cursor s Hc) as (s1 & E & Hcur & _).
        exists s1. split; [done|]. rewrite Hcur.
        apply Z.mod_pos_bound. lia.
      - destruct (decrementCursor_cursor s Hc) as (s1 & E & Hcur).
        exists s1. split; [done|]. lia. }
    destruct (IH s1 Hc1 Hm) as (s' & Hrun & Hc').
    exists s'. split; [|done].
    cbn [run]. rewrite Hs1. exact Hrun.
Qed.

(** C7 - Cursor bound: from a cursor position in [0,14), any sequence of
    forward advances and reverse moves is carried out and leaves the
    cursor in [0,14); one advance gives [(cursor+1) mod 14] and one
    reverse move gives [max(cursor-2, 0)]; advancing from 13 yields 0, and
    a reverse move from 0 or from 1 yields 0. *)
Theorem cursor_bound (s : State) (moves : list Event) :
  0 <= cursorPos s < 14 → forallb cursor_move moves = true →
  (∃ s', run moves s = Some s' ∧ 0 <= cursorPos s' < 14)
  ∧ (∃ s', incrementCursor s = Some s'
           ∧ cursorPos s' = (cursorPos s + 1) mod 14)
  ∧ (∃ s', decrementCursor s = Some s'
           ∧ cursorPos s' = Z.max (cursorPos s - 2) 0)
  ∧ (∃ s', incrementCursor (set_cursorPos 13 s) = Some s' ∧ cursorPos s' = 0)
  ∧ (∃ s', decrementCursor (set_cursorPos 0 s) = Some s' ∧ cursorPos s' = 0)
  ∧ (∃ s', decrementCursor (set_cursorPos 1 s) = Some s' ∧ cursorPos s' = 0).
Proof.
  intros Hc Hm. split; [by apply cursor_moves_bound|].
  split.
  { destruct (incrementCursor_cursor s Hc) as (s' & E & Hcur & _). eauto. }
  split; [by apply decrementCursor_cursor|].
  split.
  { destruct (incrementCursor_cursor (set_cursorPos 13 s)) as (s' & E & Hcur & _);
      [st_simpl; lia|].
    exists s'. split; [done|]. rewrite Hcur. reflexivity. }
  split; eexists; (split; [reflexivity|]); reflexivity.
Qed.

Lemma cursor_bound_witness :
  ∃ s', run [EvIncrementCursor; EvDecrementCursor; EvIncrementCursor;
             EvIncrementCursor; EvIncrementCursor; EvDecrementCursor]
          (set_cursorPos 12 (setup example_config true)) = Some s'
        ∧ 0 <= cursorPos s' < 14.
Proof.
  apply (cursor_bound (set_cursorPos 12 (setup example_config true))
           [EvIncrementCursor; EvDecrementCursor; EvIncrementCursor;
            EvIncrementCursor; EvIncrementCursor; EvDecrementCursor]).
  - cbn. lia.
  - reflexivity.
Defined.

(** ** The float switch *)

(** C8 - Idempotent re-arm guard: [underWater] always returns; when
    [running] is already true it leaves [pumpActive], [initPumpNo],
    [currentPumpNo] and the pending timer entries unchanged; when
    [running] is false it sets [running] and appends the six start
    callbacks, one per pump at the pump's configured offset. *)
Theorem rearm_guard (s : State) :
  ∃ s', underWater s = Some s' ∧ running s' = true
        ∧ pumpActive s' = pumpActive s
        ∧ currentPumpNo s' = currentPumpNo s
        ∧ if running s
          then initPumpNo s' = initPumpNo s ∧ timer s' = timer s
          else initPumpNo s' = 0
               ∧ timer s' = timer s ++ start_events s
               ∧ start_events s
                 = (λ i, mkTimerEvent
                           (to_ulong (Properties_getInt i s * MIN2MILLI))
                           false CbStartPump) <$> [0; 1; 2; 3; 4; 5].
Proof.
  rewrite underWater_eq. eexists. split; [reflexivity|].
  destruct (running s) eqn:Hrun; st_simpl; repeat split; done.
Qed.

(** C10 - Water-loss no-op: [overWater] returns and changes nothing but
    the screen: every [pumpActive] flag, every pin level, [running], both
    sequence counters and the pending timer entries keep their values. *)
Theorem water_loss_noop (s : State) :
  ∃ s', overWater s = Some s'
        ∧ s' = set_screen (ScrBig "Water?") s
        ∧ pumpActive s' = pumpActive s
        ∧ pinLevel s' = pinLevel s
        ∧ pinOutput s' = pinOutput s
        ∧ running s' = running s
        ∧ initPumpNo s' = initPumpNo s
        ∧ currentPumpNo s' = currentPumpNo s
        ∧ timer s' = timer s
        ∧ properties s' = properties s.
Proof. eexists. split; [reflexivity|]. repeat split. Qed.

(** ** Editing values *)

Lemma c_rem_2_even v : 0 <= v → (c_rem v 2 =? 0) = Z.even v.
Proof.
  intros Hv. unfold c_rem. rewrite Z.rem_mod_nonneg by lia.
  rewrite Zeven_mod. reflexivity.
Qed.

Lemma c_div_2 v : 0 <= v → c_div v 2 = v `div` 2.
Proof. intros Hv. unfold c_div. apply Z.quot_div_nonneg; lia. Qed.

(** C9 - Edit deltas and target mapping: at a cursor position [v] in
    [0,14), a press of the up button calls [modify(v/2, +60)] when [v] is
    even and [modify(v/2, +1)] when odd, a hold [+540] or [+9], the down
    button the negated deltas on the same index; the edit stores
    [max(get(v/2) + delta, 0)] (16-bit sum) at index [v/2], leaves the
    other entries alone and sets [reqRestart]. *)
Theorem edit_deltas (s : State) :
  0 <= cursorPos s < 14 →
  let v := cursorPos s in
  changeVal upBtn s = Some (modify (v `div` 2) (edit_delta false true v) s)
  ∧ changeVal downBtn s = Some (modify (v `div` 2) (edit_delta false false v) s)
  ∧ bigChangeVal upBtn s = Some (modify (v `div` 2) (edit_delta true true v) s)
  ∧ bigChangeVal downBtn s
    = Some (modify (v `div` 2) (edit_delta true false v) s)
  ∧ ∀ delta,
      reqRestart (modify (v `div` 2) delta s) = true
      ∧ properties (modify (v `div` 2) delta s)
        = <[v `div` 2 :=
              Z.max (wrap16 (Properties_getInt (v `div` 2) s + delta)) 0]>
            (properties s).
Proof.
  intros Hc v. unfold changeVal, bigChangeVal, edit_delta.
  rewrite c_rem_2_even, c_div_2 by lia. fold v.
  assert ((downBtn =? upBtn) = false) as Hdu by reflexivity.
  rewrite !Z.eqb_refl, Hdu.
  destruct (Z.even v); repeat split.
  all: unfold modify; st_simpl; by rewrite c_max_Zmax.
Qed.

Lemma edit_deltas_witness :
  changeVal upBtn (set_cursorPos 3 (setup example_config true))
  = Some (modify 1 1 (set_cursorPos 3 (setup example_config true)))
  ∧ bigChangeVal downBtn (set_cursorPos 12 (setup example_config true))
    = Some (modify 6 (-540) (set_cursorPos 12 (setup example_config true))).
Proof.
  split.
  - apply (edit_deltas (set_cursorPos 3 (setup example_config true))).
    cbn. lia.
  - apply (edit_deltas (set_cursorPos 12 (setup example_config true))).
    cbn. lia.
Defined.

(** ** Callbacks that fire while the engine is not running *)

Lemma wrap16_succ_ne z : wrap16 (z + 1) ≠ z.
Proof. unfold wrap16. intros H. Z.div_mod_to_equations. lia. Qed.

(** C4, as stated, fails: a commit before any water was seen schedules
    start callbacks while [running] is false, and the first of them to
    fire moves [initPumpNo] from 0 to 1. *)
Lemma stale_start_counts :
  ¬ stale_callbacks_are_noops.
Proof.
  intros H.
  assert (∃ s ev s',
            run edit_and_commit (setup example_config true) = Some s
            ∧ running s = false
            ∧ timer s !! 1%nat = Some ev ∧ callback ev = CbStartPump
            ∧ run_callback (callback ev) s = Some s'
            ∧ initPumpNo s = 0 ∧ initPumpNo s' = 1)
    as (s & ev & s' & E & Hrun & Hk & Hcb & Hfire & H0 & H1).
  { do 3 eexists. split; [vm_compute; reflexivity|].
    repeat split; vm_compute; reflexivity. }
  destruct (H _ _ _ s 1%nat ev s' E Hrun Hk (or_introl Hcb) Hfire)
    as (_ & _ & Hinit & _).
  lia.
Qed.

(** C4 - Stale callbacks, amended: in a state the sketch reaches with
    [running] false, the start callback returns and changes nothing but
    [initPumpNo], which it increments (as a 16-bit [int]); no stop
    callback is pending in such a state. *)
Theorem stale_start_only_counts stored loaded evs s :
  run evs (setup stored loaded) = Some s → running s = false →
  startPump s = Some (set_initPumpNo (wrap16 (initPumpNo s + 1)) s)
  ∧ wrap16 (initPumpNo s + 1) ≠ initPumpNo s
  ∧ ∀ ev, ev ∈ timer s → callback ev ≠ CbStopPump.
Proof.
  intros Hreach Hrun. split; [by apply startPump_eq_idle|].
  split; [apply wrap16_succ_ne|].
  destruct (run_engine_inv evs _ _ (setup_engine_inv stored loaded) Hreach)
    as [_ Hidle].
  by destruct (Hidle Hrun) as (_ & _ & Htim).
Qed.

Lemma stale_start_only_counts_witness :
  ∃ s, run edit_and_commit (setup example_config true) = Some s
       ∧ startPump s = Some (set_initPumpNo (wrap16 (initPumpNo s + 1)) s)
       ∧ initPumpNo s = 0.
Proof.
  eexists. split; [vm_compute; reflexivity|].
  split; [|reflexivity].
  apply (stale_start_only_counts example_config true edit_and_commit).
  - vm_compute. reflexivity.
  - reflexivity.
Defined.

(** ** The commit path *)

(** A commit happens exactly on the advance from 13 to 0 with
    [reqRestart] set. *)
Lemma commit_on_wrap s :
  0 <= cursorPos s < 14 →
  incrementCursor s
  = if bool_decide (cursorPos s = 13) && reqRestart s
    then saveAndRestart (set_cursorPos 0 s)
    else Some (set_cursorPos ((cursorPos s + 1) mod 14) s).
Proof.
  intros Hc. rewrite incrementCursor_eq. cbv zeta.
  assert (c_rem (wrap16 (cursorPos s + 1)) 14 = (cursorPos s + 1) mod 14)
    as ->.
  { rewrite wrap16_id by lia. unfold c_rem. apply Z.rem_mod_nonneg; lia. }
  st_simpl. case_bool_decide as H13.
  - rewrite H13. reflexivity.
  - assert (((cursorPos s + 1) mod 14 =? 0) = false) as ->; [|done].
    apply Z.eqb_neq. rewrite Z.mod_small by lia. lia.
Qed.

(** No handler and no callback ever clears [reqRestart]. *)
Lemma reqRestart_never_cleared e s s' :
  pumps_inv s → reqRestart s = true → step e s = Some s' →
  reqRestart s' = true.
Proof.
  intros [Hlen _] Hreq H. destruct e; cbn [step] in H.
  - rewrite underWater_eq in H. apply (inj Some) in H; subst s'.
    by destruct (running s).
  - by apply (inj Some) in H; subst s'.
  - rewrite incrementCursor_eq in H. cbv zeta in H.
    destruct (_ && _) in H.
    + rewrite saveAndRestart_eq in H. by apply (inj Some) in H; subst s'.
    + by apply (inj Some) in H; subst s'.
  - by apply (inj Some) in H; subst s'.
  - unfold changeVal in H.
    repeat destruct (_ =? _) in H; by apply (inj Some) in H; subst s'.
  - unfold bigChangeVal in H.
    repeat destruct (_ =? _) in H; by apply (inj Some) in H; subst s'.
  - unfold timer_fire in H. destruct (timer s !! k) as [ev|]; cycle 1.
    { by apply (inj Some) in H; subst s'. }
    destruct (run_callback (callback ev) s) as [s1|] eqn:E; [|done].
    cbn [mbind option_bind] in H.
    assert (reqRestart s1 = true) as Hs1.
    { destruct (callback ev); cbn [run_callback] in E.
      - destruct (running s) eqn:Hrun.
        + destruct (decide (0 <= initPumpNo s < 6)) as [Hin|Hout].
          * rewrite startPump_eq_running in E by done.
            by apply (inj Some) in E; subst s1.
          * by rewrite startPump_out_of_bounds in E.
        + rewrite startPump_eq_idle in E by done.
          by apply (inj Some) in E; subst s1.
      - destruct (decide (0 <= currentPumpNo s < 6)) as [Hin|Hout].
        + rewrite stopPump_eq in E by done.
          by apply (inj Some) in E; subst s1.
        + by rewrite stopPump_out_of_bounds in E.
      - by apply (inj Some) in E; subst s1. }
    apply (inj Some) in H; subst s'. by destruct (repeats ev).
Qed.

(** C2 - Commit-on-wrap, on the sketch: after one edit and a full turn
    of the cursor the commit has rescheduled the six start callbacks and
    [reqRestart] is still set; a second full turn with no edit in between
    commits again and adds six more start callbacks. *)
Theorem commit_leaves_reqRestart_set :
  ∃ s1 s2,
    run edit_and_commit (setup example_config true) = Some s1
    ∧ cursorPos s1 = 0 ∧ reqRestart s1 = true
    ∧ timer s1 = timer (setup example_config true) ++ start_events s1
    ∧ run (replicate 14 EvIncrementCursor) s1 = Some s2
    ∧ properties s2 = properties s1
    ∧ cursorPos s2 = 0 ∧ reqRestart s2 = true
    ∧ timer s2 = timer s1 ++ start_events s1.
Proof.
  do 2 eexists. split; [vm_compute; reflexivity|].
  split; [reflexivity|]. split; [reflexivity|].
  split; [vm_compute; reflexivity|].
  split; [vm_compute; reflexivity|].
  repeat split; vm_compute; reflexivity.
Qed.

(** ** Rearming after a completed sequence *)

Lemma setupPumps_keeps_currentPumpNo s s' :
  setupPumps s = Some s' → currentPumpNo s' = currentPumpNo s.
Proof.
  rewrite setupPumps_eq. intros H. by apply (inj Some) in H; subst s'.
Qed.

(** At the first arming both counters are 0: [setupPumps] resets
    [initPumpNo], and [currentPumpNo] has not moved yet. *)
Lemma first_arming_counters stored loaded evs s :
  run evs (setup stored loaded) = Some s → running s = false →
  ∃ s', underWater s = Some s'
        ∧ timer s' = timer s ++ start_events s
        ∧ initPumpNo s' = 0 ∧ currentPumpNo s' = 0.
Proof.
  intros Hreach Hrun.
  destruct (run_engine_inv evs _ _ (setup_engine_inv stored loaded) Hreach)
    as [_ Hidle].
  destruct (Hidle Hrun) as (Hcur & _ & _).
  rewrite underWater_eq, Hrun. eexists. split; [reflexivity|].
  st_simpl. by repeat split.
Qed.

(** C3 - Arming and the sequence counters, on the sketch: after a
    completed sequence both counters are 6; the commit that follows
    reschedules the six start callbacks and resets [initPumpNo] to 0,
    while [currentPumpNo] stays 6. *)
Theorem rearm_keeps_currentPumpNo :
  ∃ s1 s2,
    run first_sequence (setup spaced_config true) = Some s1
    ∧ initPumpNo s1 = 6 ∧ currentPumpNo s1 = 6
    ∧ run edit_and_commit s1 = Some s2
    ∧ timer s2 = timer s1 ++ start_events s2
    ∧ initPumpNo s2 = 0 ∧ currentPumpNo s2 = 6.
Proof.
  do 2 eexists. split; [vm_compute; reflexivity|].
  split; [reflexivity|]. split; [reflexivity|].
  split; [vm_compute; reflexivity|].
  repeat split; vm_compute; reflexivity.
Qed.

(** C5 - Pump-index bounds, on the sketch: after a completed sequence
    and a commit, the first start callback of the new schedule starts
    pump 0 and registers a stop callback; when that stop callback fires,
    [currentPumpNo] is 6 and [stopPump(6)] indexes [PUMP_PINS] and
    [pumpActive] past their end. *)
Theorem stop_after_rearm_out_of_bounds :
  ∃ s,
    run (first_sequence ++ edit_and_commit ++ [EvTimer 2])
      (setup spaced_config true) = Some s
    ∧ running s = true
    ∧ pumpActive s = [true; false; false; false; false; false]
    ∧ timer s !! 6%nat = Some (stop_event s)
    ∧ currentPumpNo s = 6
    ∧ array_get PUMP_PINS (currentPumpNo s) = None
    ∧ array_set (pumpActive s) (currentPumpNo s) false = None
    ∧ step (EvTimer 6) s = None.
Proof.
  eexists. split; [vm_compute; reflexivity|].
  repeat split; vm_compute; reflexivity.
Qed.

(** ** What a step can change *)

Lemma run_callback_cases cb s s1 :
  length (pumpActive s) = 6%nat → run_callback cb s = Some s1 →
  match cb with
  | CbStartPump =>
      (running s = false ∧ s1 = set_initPumpNo (wrap16 (initPumpNo s + 1)) s)
      ∨ (running s = true ∧ 0 <= initPumpNo s < 6
         ∧ s1 = set_initPumpNo (wrap16 (initPumpNo s + 1))
                  (set_pumpActive
                     (<[Z.to_nat (initPumpNo s) := true]> (replicate 6 false))
                     (set_pinLevel
                        (clear_pins (initPumpNo s) (seqZ 0 6)
                           (<[8 + initPumpNo s := true]> (pinLevel s)))
                        (set_timer (timer s ++ [stop_event s]) s))))
  | CbStopPump =>
      0 <= currentPumpNo s < 6
      ∧ s1 = set_currentPumpNo (wrap16 (currentPumpNo s + 1))
               (set_pumpActive
                  (<[Z.to_nat (currentPumpNo s) := false]> (pumpActive s))
                  (digitalWrite (8 + currentPumpNo s) false s))
  | CbBlink => s1 = set_blinker (negb (blinker s)) s
  end.
Proof.
  intros Hlen H. destruct cb; cbn [run_callback] in H.
  - destruct (running s) eqn:Hrun.
    + destruct (decide (0 <= initPumpNo s < 6)) as [Hin|Hout].
      * rewrite startPump_eq_running in H by done.
        apply (inj Some) in H. right. by subst s1.
      * by rewrite startPump_out_of_bounds in H.
    + rewrite startPump_eq_idle in H by done.
      apply (inj Some) in H. left. by subst s1.
  - destruct (decide (0 <= currentPumpNo s < 6)) as [Hin|Hout].
    + rewrite stopPump_eq in H by done. apply (inj Some) in H. by subst s1.
    + by rewrite stopPump_out_of_bounds in H.
  - apply (inj Some) in H. by subst s1.
Qed.

Lemma timer_fire_cases k s s' :
  timer_fire k s = Some s' →
  (timer s !! k = None ∧ s' = s)
  ∨ ∃ ev s1,
      timer s !! k = Some ev ∧ run_callback (callback ev) s = Some s1
      ∧ s' = (if repeats ev then s1 else set_timer (delete k (timer s1)) s1).
Proof.
  unfold timer_fire. intros H. destruct (timer s !! k) as [ev|]; cycle 1.
  { left. apply (inj Some) in H. by subst s'. }
  destruct (run_callback (callback ev) s) as [s1|] eqn:E; [|done].
  cbn [mbind option_bind] in H. apply (inj Some) in H.
  right. exists ev, s1. by subst s'.
Qed.

Lemma step_frame e s s' :
  length (pumpActive s) = 6%nat → step e s = Some s' →
  (if cursor_move e then True else cursorPos s' = cursorPos s)
  ∧ (if is_edit e then True
     else properties s' = properties s ∧ reqRestart s' = reqRestart s)
  ∧ match e with
    | EvUnderWater => True
    | _ => running s' = running s
    end
  ∧ match e with
    | EvTimer _ => True
    | _ => pumpActive s' = pumpActive s ∧ pinLevel s' = pinLevel s
           ∧ currentPumpNo s' = currentPumpNo s ∧ blinker s' = blinker s
    end
  ∧ error s' = error s.
Proof.
  intros Hlen H. destruct e; cbn [step cursor_move is_edit] in *.
  - rewrite underWater_eq in H. apply (inj Some) in H; subst s'.
    by destruct (running s).
  - by apply (inj Some) in H; subst s'.
  - rewrite incrementCursor_eq in H. cbv zeta in H.
    destruct (_ && _) in H.
    + rewrite saveAndRestart_eq in H. by apply (inj Some) in H; subst s'.
    + by apply (inj Some) in H; subst s'.
  - by apply (inj Some) in H; subst s'.
  - unfold changeVal in H.
    repeat destruct (_ =? _) in H; by apply (inj Some) in H; subst s'.
  - unfold bigChangeVal in H.
    repeat destruct (_ =? _) in H; by apply (inj Some) in H; subst s'.
  - apply timer_fire_cases in H as [[_ ->]|(ev & s1 & _ & Hcb & ->)]; [done|].
    apply run_callback_cases in Hcb; [|done].
    destruct (callback ev).
    + destruct Hcb as [[_ ->]|(_ & _ & ->)]; by destruct (repeats ev).
    + destruct Hcb as [_ ->]. by destruct (repeats ev).
    + subst s1. by destruct (repeats ev).
Qed.

(** X1 - Who changes what: only the next button moves the cursor, only
    the up and down buttons change the stored configuration and
    [reqRestart], only the float switch changes [running], and only timer
    callbacks change the pump flags, the pin levels, [currentPumpNo] and
    [blinker]; nothing changes [error]. *)
Theorem step_frames e s s' :
  length (pumpActive s) = 6%nat → step e s = Some s' →
  (if cursor_move e then True else cursorPos s' = cursorPos s)
  ∧ (if is_edit e then True
     else properties s' = properties s ∧ reqRestart s' = reqRestart s)
  ∧ match e with
    | EvUnderWater => True
    | _ => running s' = running s
    end
  ∧ match e with
    | EvTimer _ => True
    | _ => pumpActive s' = pumpActive s ∧ pinLevel s' = pinLevel s
           ∧ currentPumpNo s' = currentPumpNo s ∧ blinker s' = blinker s
    end
  ∧ error s' = error s.
Proof. apply step_frame. Qed.

Lemma step_frames_witness :
  ∃ s', step EvOverWater (setup example_config true) = Some s'
        ∧ cursorPos s' = 0 ∧ properties s' = example_config.
Proof.
  eexists. split; [reflexivity|].
  destruct (step_frames EvOverWater (setup example_config true)
              (displayBig "Water?" (setup example_config true)))
    as (Hc & [Hp _] & _).
  - reflexivity.
  - reflexivity.
  - split; [exact Hc | exact Hp].
Defined.

(** X2 - Once armed, always armed: after [running] has become true, no
    sequence of events (water loss included) makes it false again. *)
Theorem running_never_cleared stored loaded evs s evs' s' :
  run evs (setup stored loaded) = Some s → running s = true →
  run evs' s = Some s' → running s' = true.
Proof.
  intros Hreach Hrun Hrun'.
  destruct (run_engine_inv evs _ _ (setup_engine_inv stored loaded) Hreach)
    as [Hp _].
  apply (run_invariant (λ t, pumps_inv t ∧ running t = true))
    with (evs := evs') (s := s) (s' := s'); [|by split|done].
  clear. intros e s s' [Hp Hr] H. split.
  - eapply step_pumps_inv; eauto.
  - eapply step_running; eauto.
Qed.

Lemma running_never_cleared_witness :
  ∃ s s',
    run [EvUnderWater] (setup example_config true) = Some s
    ∧ run [EvOverWater; EvTimer 1; EvOverWater; EvUnderWater] s = Some s'
    ∧ running s' = true.
Proof.
  do 2 eexists. split; [vm_compute; reflexivity|].
  split; [vm_compute; reflexivity|].
  eapply (running_never_cleared example_config true [EvUnderWater] _
            [EvOverWater; EvTimer 1; EvOverWater; EvUnderWater]).
  - vm_compute. reflexivity.
  - reflexivity.
  - vm_compute. reflexivity.
Defined.

Lemma step_cursor_range e s s' :
  length (pumpActive s) = 6%nat → 0 <= cursorPos s < 14 →
  step e s = Some s' → 0 <= cursorPos s' < 14.
Proof.
  intros Hlen Hc H.
  destruct (cursor_move e) eqn:Hmove.
  - destruct e; try discriminate; cbn [step] in H.
    + destruct (incrementCursor_cursor s Hc) as (s1 & E & Hcur & _).
      rewrite E in H. apply (inj Some) in H; subst s1. rewrite Hcur.
      apply Z.mod_pos_bound. lia.
    + destruct (decrementCursor_cursor s Hc) as (s1 & E & Hcur).
      rewrite E in H. apply (inj Some) in H; subst s1. lia.
  - destruct (step_frame e s s' Hlen H) as (Hcur & _).
    rewrite Hmove in Hcur. by rewrite Hcur.
Qed.

(** X3 - The cursor never leaves the fourteen digit positions: after
    [setup()] and any sequence of events, of any kind, [cursorPos] is in
    [0,14). *)
Theorem cursor_always_in_range stored loaded evs s :
  run evs (setup stored loaded) = Some s → 0 <= cursorPos s < 14.
Proof.
  intros Hreach.
  apply (run_invariant (λ t, pumps_inv t ∧ 0 <= cursorPos t < 14))
    with (evs := evs) (s := setup stored loaded) (s' := s); [| |done].
  - clear. intros e s s' [Hp Hc] H. split.
    + eapply step_pumps_inv; eauto.
    + destruct Hp as [Hlen _]. eapply step_cursor_range; eauto.
  - split; [apply setup_pumps_inv|]. cbn. lia.
Qed.

Lemma cursor_always_in_range_witness :
  ∃ s, run (EvDecrementCursor :: EvChangeVal downBtn
            :: replicate 13 EvIncrementCursor ++ [EvUnderWater; EvTimer 1])
         (setup example_config true) = Some s
       ∧ cursorPos s = 13 ∧ 0 <= cursorPos s < 14.
Proof.
  eexists. split; [vm_compute; reflexivity|]. split; [reflexivity|].
  apply (cursor_always_in_range example_config true
           (EvDecrementCursor :: EvChangeVal downBtn
            :: replicate 13 EvIncrementCursor ++ [EvUnderWater; EvTimer 1])).
  vm_compute. reflexivity.
Defined.

(** ** Outputs and flags *)

Lemma PUMP_PINS_lookup (i : nat) pin :
  PUMP_PINS !! i = Some pin → (i < 6)%nat ∧ pin = 8 + Z.of_nat i.
Proof.
  intros H.
  do 6 (destruct i as [|i]; [cbn in H; inversion H; split; [lia|done]|]).
  discriminate.
Qed.

Lemma clear_pins_lookup p (i : nat) (m : gmap Z bool) :
  0 <= p < 6 → (i < 6)%nat →
  clear_pins p (seqZ 0 6) (<[8 + p := true]> m) !! (8 + Z.of_nat i)
  = Some (bool_decide (Z.of_nat i = p)).
Proof.
  intros Hp Hi. change (seqZ 0 6) with [0; 1; 2; 3; 4; 5].
  unfold clear_pins. cbn [foldl].
  repeat case_bool_decide; try lia;
    repeat (rewrite lookup_insert; case_decide; try lia); done.
Qed.

Lemma only_flag_lookup p (i : nat) :
  0 <= p < 6 → (i < 6)%nat →
  <[Z.to_nat p := true]> (replicate 6 false) !! i
  = Some (bool_decide (Z.of_nat i = p)).
Proof.
  intros Hp Hi. destruct (decide (i = Z.to_nat p)) as [->|Hne].
  - rewrite list_lookup_insert_eq by (rewrite length_replicate; lia).
    by rewrite bool_decide_eq_true_2 by lia.
  - rewrite list_lookup_insert_ne by done.
    rewrite lookup_replicate_2 by done.
    by rewrite bool_decide_eq_false_2 by lia.
Qed.

Lemma step_outputs_match_flags e s s' :
  length (pumpActive s) = 6%nat → outputs_match_flags s →
  step e s = Some s' → outputs_match_flags s'.
Proof.
  intros Hlen Hs H.
  destruct (step_frame e s s' Hlen H) as (_ & _ & _ & Hfr & _).
  destruct e; try (destruct Hfr as (Ha & Hl & _); unfold outputs_match_flags,
    pin_is_high; rewrite Ha, Hl; exact Hs).
  clear Hfr. cbn [step] in H.
  apply timer_fire_cases in H as [[_ ->]|(ev & s1 & _ & Hcb & ->)]; [done|].
  apply run_callback_cases in Hcb; [|done].
  assert (outputs_match_flags s1) as Hs1; cycle 1.
  { by destruct (repeats ev). }
  destruct (callback ev).
  - destruct Hcb as [[_ ->]|(_ & Hin & ->)]; [exact Hs|].
    intros i pin Hpin. apply PUMP_PINS_lookup in Hpin as [Hi ->].
    unfold pin_is_high. st_simpl.
    by rewrite clear_pins_lookup, only_flag_lookup.
  - destruct Hcb as [Hin ->].
    intros i pin Hpin. pose proof (Hs i pin Hpin) as Hold.
    apply PUMP_PINS_lookup in Hpin as [Hi ->].
    unfold pin_is_high in *. st_simpl.
    destruct (decide (Z.of_nat i = currentPumpNo s)) as [Heq|Hne].
    + rewrite <- Heq, Nat2Z.id, lookup_insert_eq.
      by rewrite list_lookup_insert_eq by lia.
    + rewrite lookup_insert_ne by lia.
      by rewrite list_lookup_insert_ne by lia.
  - subst s1. exact Hs.
Qed.

(** X4 - Outputs mirror flags: in every state reached from [setup()] each
    pump pin is high exactly when the pump's [pumpActive] flag is set, so
    at most one pump pin is high. *)
Theorem outputs_mirror_flags stored loaded evs s :
  run evs (setup stored loaded) = Some s →
  outputs_match_flags s
  ∧ ∀ (i j : nat) pi pj,
      PUMP_PINS !! i = Some pi → PUMP_PINS !! j = Some pj →
      pin_is_high s pi = true → pin_is_high s pj = true → i = j.
Proof.
  intros Hreach.
  assert (pumps_inv s ∧ outputs_match_flags s) as [[Hlen Hone] Hm].
  { apply (run_invariant (λ t, pumps_inv t ∧ outputs_match_flags t))
      with (evs := evs) (s := setup stored loaded) (s' := s); [| |done].
    - clear. intros e s s' [Hp Hm] H. split.
      + eapply step_pumps_inv; eauto.
      + destruct Hp as [Hlen _]. eapply step_outputs_match_flags; eauto.
    - split; [apply setup_pumps_inv|].
      intros i pin Hpin. apply PUMP_PINS_lookup in Hpin as [Hi ->].
      unfold pin_is_high, setup. st_simpl. rewrite lookup_empty.
      do 6 (destruct i as [|i]; [reflexivity|]). lia. }
  split; [exact Hm|].
  intros i j pi pj Hi Hj Hhi Hhj.
  rewrite (Hm i pi Hi) in Hhi. rewrite (Hm j pj Hj) in Hhj.
  apply Hone.
  - destruct (pumpActive s !! i) as [[]|]; done.
  - destruct (pumpActive s !! j) as [[]|]; done.
Qed.

Lemma outputs_mirror_flags_witness :
  ∃ s, run [EvUnderWater; EvTimer 1; EvTimer 1] (setup example_config true)
       = Some s
       ∧ pin_is_high s 9 = true ∧ pin_is_high s 8 = false
       ∧ outputs_match_flags s.
Proof.
  eexists. split; [vm_compute; reflexivity|].
  split; [vm_compute; reflexivity|]. split; [vm_compute; reflexivity|].
  apply (outputs_mirror_flags example_config true
           [EvUnderWater; EvTimer 1; EvTimer 1]).
  vm_compute. reflexivity.
Defined.

(** ** A schedule that no commit disturbs *)

Lemma count_cb_nonneg cb l : 0 <= count_cb cb l.
Proof. induction l as [|ev l IH]; cbn [count_cb]; [|case_bool_decide]; lia. Qed.

Lemma count_cb_app cb l1 l2 :
  count_cb cb (l1 ++ l2) = count_cb cb l1 + count_cb cb l2.
Proof. induction l1 as [|ev l1 IH]; cbn [app count_cb]; lia. Qed.

Lemma count_cb_delete cb l : ∀ k ev,
  l !! k = Some ev →
  count_cb cb (delete k l)
  = count_cb cb l - (if bool_decide (callback ev = cb) then 1 else 0).
Proof.
  induction l as [|x l IH]; intros k ev Hk; [done|].
  destruct k as [|k].
  - cbn in Hk. apply (inj Some) in Hk; subst x.
    change (delete 0%nat (ev :: l)) with l.
    cbn [count_cb]. case_bool_decide; lia.
  - cbn in Hk. change (delete (S k) (x :: l)) with (x :: delete k l).
    cbn [count_cb]. rewrite (IH k ev Hk). lia.
Qed.

Lemma count_cb_elem cb l ev :
  ev ∈ l → callback ev = cb → 1 <= count_cb cb l.
Proof.
  intros Hin Hcb. induction Hin as [ev l|ev x l Hin IH]; cbn [count_cb].
  - rewrite bool_decide_eq_true_2 by done.
    pose proof (count_cb_nonneg cb l). lia.
  - specialize (IH Hcb). case_bool_decide; lia.
Qed.

Lemma start_events_repeats s ev : ev ∈ start_events s → repeats ev = false.
Proof.
  unfold start_events. intros H.
  apply list_elem_of_fmap in H as (i & -> & _). reflexivity.
Qed.

Lemma step_undisturbed e s :
  undisturbed s → is_edit e = false →
  ∃ s', step e s = Some s' ∧ undisturbed s'.
Proof.
  intros (Hreq & Hlen & Hrep & Hstart & Hstop & Hcur & Hact) Hedit.
  pose proof (count_cb_nonneg CbStartPump (timer s)) as HS.
  pose proof (count_cb_nonneg CbStopPump (timer s)) as HT.
  destruct e; try discriminate; cbn [step].
  - rewrite underWater_eq. eexists. split; [reflexivity|].
    unfold undisturbed.
    destruct (running s) eqn:Hrun; st_simpl_goal; rewrite ?Hrun;
      [by repeat split|].
    rewrite !count_cb_app.
    change (count_cb CbStartPump (start_events s)) with 6.
    change (count_cb CbStopPump (start_events s)) with 0.
    repeat split; try done; try lia.
    + intros ev [Hev|Hev]%elem_of_app; [by apply Hrep|].
      intros _. by apply start_events_repeats in Hev.
    + intros i Hi. specialize (Hact i Hi). lia.
  - eexists. split; [reflexivity|]. by repeat split.
  - rewrite incrementCursor_eq. cbv zeta. rewrite Hreq, andb_false_r.
    eexists. split; [reflexivity|]. by repeat split.
  - eexists. split; [reflexivity|]. by repeat split.
  - unfold timer_fire. destruct (timer s !! k) as [ev|] eqn:Ek; cycle 1.
    { eexists. split; [reflexivity|]. by repeat split. }
    assert (ev ∈ timer s) as Hev by (eapply list_elem_of_lookup_2; eauto).
    destruct (callback ev) eqn:Ecb; cbn [run_callback].
    + (* a start callback *)
      pose proof (count_cb_elem _ _ _ Hev Ecb) as H1.
      assert (running s = true) as Hrun.
      { destruct (running s); [done|lia]. }
      rewrite Hrun in Hstart.
      rewrite startPump_eq_running by (done || lia).
      cbn [mbind option_bind]. rewrite (Hrep ev Hev) by (by rewrite Ecb).
      eexists. split; [reflexivity|].
      unfold undisturbed. st_simpl_goal.
      rewrite !(count_cb_delete _ _ k ev) by (by apply lookup_app_l_Some).
      rewrite !count_cb_app, Ecb, Hrun. cbn [count_cb stop_event callback].
      rewrite wrap16_id by lia.
      repeat split; try done; try lia.
      * by rewrite length_insert, length_replicate.
      * intros ev' Hin%list_elem_of_delete_inv.
        apply elem_of_app in Hin as [Hin|Hin]; [by apply Hrep|].
        apply list_elem_of_singleton in Hin. by subst ev'.
      * repeat case_bool_decide; try done; lia.
      * repeat case_bool_decide; try done; lia.
      * intros i Hi.
        destruct (decide (i = Z.to_nat (initPumpNo s))) as [->|Hne]; [lia|].
        rewrite list_lookup_insert_ne in Hi by done.
        apply lookup_replicate in Hi as [? _]. done.
    + (* a stop callback *)
      pose proof (count_cb_elem _ _ _ Hev Ecb) as H1.
      assert (initPumpNo s <= 6) as H6 by (destruct (running s); lia).
      rewrite stopPump_eq by (done || lia).
      cbn [mbind option_bind]. rewrite (Hrep ev Hev) by (by rewrite Ecb).
      eexists. split; [reflexivity|].
      unfold undisturbed. st_simpl_goal.
      rewrite !(count_cb_delete _ _ k ev) by done.
      rewrite Ecb. rewrite wrap16_id by lia.
      repeat split; try done; try (repeat case_bool_decide; try done; lia).
      * by rewrite length_insert.
      * intros ev' Hin%list_elem_of_delete_inv. by apply Hrep.
      * intros i Hi. apply Hact.
        destruct (decide (i = Z.to_nat (currentPumpNo s))) as [->|Hne].
        -- rewrite list_lookup_insert_eq in Hi by lia. done.
        -- by rewrite list_lookup_insert_ne in Hi.
    + (* the blinker *)
      cbn [blink mbind option_bind]. eexists. split; [reflexivity|].
      destruct (repeats ev); [by repeat split|].
      unfold undisturbed. st_simpl_goal.
      rewrite !(count_cb_delete _ _ k ev) by done. rewrite Ecb.
      repeat split; try done; try (repeat case_bool_decide; try done; lia).
      intros ev' Hin%list_elem_of_delete_inv. by apply Hrep.
Qed.

Lemma setup_undisturbed stored loaded : undisturbed (setup stored loaded).
Proof.
  unfold undisturbed, setup. st_simpl. cbn [count_cb callback app].
  repeat split; try done.
  - intros ev Hev. apply list_elem_of_singleton in Hev. by subst ev.
  - intros i Hi. do 6 (destruct i as [|i]; [discriminate|]). discriminate.
Qed.

Lemma run_undisturbed evs : ∀ s,
  undisturbed s → forallb (λ e, negb (is_edit e)) evs = true →
  ∃ s', run evs s = Some s' ∧ undisturbed s'.
Proof.
  induction evs as [|e evs IH]; intros s Hs Hevs.
  - exists s. by split.
  - cbn [forallb] in Hevs. apply andb_true_iff in Hevs as [He Hevs].
    apply negb_true_iff in He.
    destruct (step_undisturbed e s Hs He) as (s1 & Hstep & Hs1).
    destruct (IH s1 Hs1 Hevs) as (s' & Hrun & Hs').
    exists s'. split; [|done]. cbn [run]. by rewrite Hstep.
Qed.

(** X5 - Without edits nothing goes out of bounds: from [setup()] every
    sequence of float-switch, cursor and timer events is carried out to
    the end (no array is indexed outside 0..5), the counters satisfy
    [0 <= currentPumpNo <= initPumpNo <= 6], and the only pump that can be
    flagged active is the one started last. *)
Theorem unedited_run_in_bounds stored loaded evs :
  forallb (λ e, negb (is_edit e)) evs = true →
  ∃ s, run evs (setup stored loaded) = Some s
       ∧ 0 <= currentPumpNo s <= initPumpNo s ∧ initPumpNo s <= 6
       ∧ ∀ i : nat,
           pumpActive s !! i = Some true → Z.of_nat i = initPumpNo s - 1.
Proof.
  intros Hevs.
  destruct (run_undisturbed evs _ (setup_undisturbed stored loaded) Hevs)
    as (s & Hrun & _ & _ & _ & Hstart & Hstop & Hcur & Hact).
  exists s. split; [done|].
  pose proof (count_cb_nonneg CbStartPump (timer s)).
  pose proof (count_cb_nonneg CbStopPump (timer s)).
  repeat split; try done; destruct (running s); lia.
Qed.

Lemma unedited_run_in_bounds_witness :
  ∃ s, run (first_sequence ++ [EvIncrementCursor; EvUnderWater; EvTimer 3])
         (setup spaced_config true) = Some s
       ∧ initPumpNo s = 6 ∧ currentPumpNo s = 6.
Proof.
  destruct (unedited_run_in_bounds spaced_config true
              (first_sequence ++ [EvIncrementCursor; EvUnderWater; EvTimer 3]))
    as (s & Hrun & _).
  - reflexivity.
  - exists s. split; [exact Hrun|].
    vm_compute in Hrun. apply (inj Some) in Hrun. subst s. split; reflexivity.
Defined.

(** ** How edits compose *)

Lemma clamp_compose v a b :
  -32768 <= v + a <= 32767 → -32768 <= v + a + b <= 32767 →
  0 <= v + a ∨ b <= 0 →
  c_max (wrap16 (c_max (wrap16 (v + a)) 0 + b)) 0
  = c_max (wrap16 (v + (a + b))) 0.
Proof.
  intros Ha Hab Hor. rewrite !c_max_Zmax.
  rewrite (wrap16_id (v + a)) by lia.
  rewrite (wrap16_id (Z.max (v + a) 0 + b)) by lia.
  rewrite (wrap16_id (v + (a + b))) by lia. lia.
Qed.

Lemma modify_modify i a b s :
  -32768 <= Properties_getInt i s + a <= 32767 →
  -32768 <= Properties_getInt i s + a + b <= 32767 →
  0 <= Properties_getInt i s + a ∨ b <= 0 →
  modify i b (modify i a s) = modify i (a + b) s.
Proof.
  intros Ha Hab Hor. unfold modify. st_simpl.
  rewrite lookup_insert_eq, insert_insert_eq.
  change (default 0 (Some ?x)) with x. by rewrite clamp_compose.
Qed.

Lemma modify_commute i j a b s :
  i ≠ j → modify i a (modify j b s) = modify j b (modify i a s).
Proof.
  intros Hne. unfold modify. st_simpl.
  rewrite !lookup_insert_ne by done.
  by rewrite insert_insert_ne.
Qed.

(** One press or hold of the up or down button, at a cursor in range. *)
Lemma press_eq (hold up : bool) s :
  0 <= cursorPos s < 14 →
  step ((if hold then EvBigChangeVal else EvChangeVal)
          (if up then upBtn else downBtn)) s
  = Some (modify (cursorPos s `div` 2)
            (edit_delta hold up (cursorPos s)) s).
Proof.
  intros Hc.
  assert ((downBtn =? upBtn) = false) as Hdu by reflexivity.
  destruct hold, up; cbn [step]; unfold changeVal, bigChangeVal, edit_delta;
    rewrite c_rem_2_even, c_div_2 by lia;
    rewrite ?Z.eqb_refl, ?Hdu; destruct (Z.even (cursorPos s)); reflexivity.
Qed.

Lemma presses_eq (up : bool) (n : nat) : ∀ s,
  0 <= cursorPos s < 14 →
  0 <= Properties_getInt (cursorPos s `div` 2) s <= 32767 →
  -32768 <= Properties_getInt (cursorPos s `div` 2) s
            + Z.of_nat (S n) * edit_delta false up (cursorPos s) <= 32767 →
  run (replicate (S n) (EvChangeVal (if up then upBtn else downBtn))) s
  = Some (modify (cursorPos s `div` 2)
            (Z.of_nat (S n) * edit_delta false up (cursorPos s)) s).
Proof.
  induction n as [|n IH]; intros s Hc Hv Hn.
  - cbn [replicate run]. rewrite (press_eq false up s Hc).
    cbn [mbind option_bind]. do 2 f_equal. lia.
  - change (replicate (S (S n)) ?e) with (e :: replicate (S n) e).
    cbn [run]. rewrite (press_eq false up s Hc). cbn [mbind option_bind].
    set (i := cursorPos s `div` 2) in *.
    set (d := edit_delta false up (cursorPos s)) in *.
    assert (d = 60 ∨ d = 1 ∨ d = -60 ∨ d = -1) as Hd.
    { unfold d, edit_delta. destruct up, (Z.even (cursorPos s)); lia. }
    assert (cursorPos (modify i d s) = cursorPos s) as Hcur by reflexivity.
    rewrite IH; rewrite ?Hcur; fold i; fold d; try done.
    + rewrite modify_modify by lia. do 2 f_equal. lia.
    + rewrite modify_getInt_same, c_max_Zmax, wrap16_id by lia. lia.
    + rewrite modify_getInt_same, c_max_Zmax, wrap16_id by lia. lia.
Qed.

(** X6 - A hold is nine presses: at a cursor in range and a stored value
    in [0, 32767], holding the down button leaves the same state as nine
    short presses of it, and so does holding the up button as long as the
    value plus nine increments still fits a 16-bit [int]. *)
Theorem hold_is_nine_presses (up : bool) (s : State) :
  0 <= cursorPos s < 14 →
  0 <= Properties_getInt (cursorPos s `div` 2) s <= 32767 →
  Properties_getInt (cursorPos s `div` 2) s
  + 9 * edit_delta false up (cursorPos s) <= 32767 →
  run (replicate 9 (EvChangeVal (if up then upBtn else downBtn))) s
  = run [EvBigChangeVal (if up then upBtn else downBtn)] s.
Proof.
  intros Hc Hv Hfit.
  assert (edit_delta true up (cursorPos s)
          = 9 * edit_delta false up (cursorPos s)) as Hnine.
  { unfold edit_delta. destruct up, (Z.even (cursorPos s)); lia. }
  assert (-540 <= 9 * edit_delta false up (cursorPos s)) as Hlow.
  { unfold edit_delta. destruct up, (Z.even (cursorPos s)); lia. }
  rewrite (presses_eq up 8 s Hc Hv) by lia.
  cbn [run]. rewrite (press_eq true up s Hc). cbn [mbind option_bind].
  rewrite Hnine. reflexivity.
Qed.

Lemma hold_is_nine_presses_witness :
  run (replicate 9 (EvChangeVal downBtn))
    (set_cursorPos 3 (setup example_config true))
  = run [EvBigChangeVal downBtn] (set_cursorPos 3 (setup example_config true))
  ∧ run (replicate 9 (EvChangeVal upBtn)) (setup example_config true)
    = run [EvBigChangeVal upBtn] (setup example_config true).
Proof.
  split.
  - apply (hold_is_nine_presses false
             (set_cursorPos 3 (setup example_config true)));
      vm_compute; intuition discriminate.
  - apply (hold_is_nine_presses true (setup example_config true));
      vm_compute; intuition discriminate.
Defined.

(** X7 - Up then down, down then up: at a cursor in range, with the
    addressed value [v >= 0] and [v] plus one increment still a 16-bit
    [int], a press of up followed by a press of down leaves every stored
    value as it was; a press of down followed by a press of up leaves
    [max(v, increment)] in the addressed entry, because the decrease
    stops at zero. *)
Theorem press_round_trip (s : State) :
  0 <= cursorPos s < 14 →
  0 <= Properties_getInt (cursorPos s `div` 2) s →
  Properties_getInt (cursorPos s `div` 2) s
  + edit_delta false true (cursorPos s) <= 32767 →
  (∃ s', run [EvChangeVal upBtn; EvChangeVal downBtn] s = Some s'
         ∧ ∀ j, Properties_getInt j s' = Properties_getInt j s)
  ∧ (∃ s', run [EvChangeVal downBtn; EvChangeVal upBtn] s = Some s'
           ∧ Properties_getInt (cursorPos s `div` 2) s'
             = Z.max (Properties_getInt (cursorPos s `div` 2) s)
                 (edit_delta false true (cursorPos s))).
Proof.
  intros Hc Hv Hfit.
  set (i := cursorPos s `div` 2) in *.
  assert (∃ d, edit_delta false true (cursorPos s) = d
               ∧ edit_delta false false (cursorPos s) = - d
               ∧ (d = 60 ∨ d = 1)) as (d & Hup & Hdown & Hd).
  { unfold edit_delta. destruct (Z.even (cursorPos s)); eexists;
      (split; [reflexivity|]); split; lia. }
  rewrite Hup in *.
  split.
  - cbn [run]. rewrite (press_eq false true s Hc). cbn [mbind option_bind].
    rewrite (press_eq false false (modify _ _ s)) by done.
    cbn [mbind option_bind]. eexists. split; [reflexivity|].
    change (cursorPos (modify _ _ s)) with (cursorPos s).
    fold i. rewrite Hup, Hdown. intros j.
    rewrite modify_modify by lia.
    destruct (decide (i = j)) as [<-|Hne].
    + rewrite modify_getInt_same, c_max_Zmax, wrap16_id by lia. lia.
    + by rewrite modify_getInt_other.
  - cbn [run]. rewrite (press_eq false false s Hc). cbn [mbind option_bind].
    rewrite (press_eq false true (modify _ _ s)) by done.
    cbn [mbind option_bind]. eexists. split; [reflexivity|].
    change (cursorPos (modify _ _ s)) with (cursorPos s).
    fold i. rewrite Hup, Hdown.
    rewrite !modify_getInt_same, !c_max_Zmax.
    rewrite (wrap16_id (Properties_getInt i s + - d)) by lia.
    rewrite wrap16_id by lia. lia.
Qed.

Lemma press_round_trip_witness :
  (∃ s', run [EvChangeVal upBtn; EvChangeVal downBtn]
           (set_cursorPos 3 (setup example_config true)) = Some s'
         ∧ ∀ j, Properties_getInt j s'
                = Properties_getInt j
                    (set_cursorPos 3 (setup example_config true)))
  ∧ (∃ s', run [EvChangeVal downBtn; EvChangeVal upBtn]
             (setup example_config true) = Some s'
           ∧ Properties_getInt 0 s' = 60).
Proof.
  split.
  - apply (press_round_trip (set_cursorPos 3 (setup example_config true)));
      vm_compute; intuition discriminate.
  - destruct (press_round_trip (setup example_config true))
      as (_ & s' & Hrun & Hget); [vm_compute; intuition discriminate ..|].
    exists s'. split; [exact Hrun | exact Hget].
Defined.

(** X8 - Edits of different entries are independent: two [modify] calls
    on different indices give the same state in either order. *)
Theorem edits_commute (i j a b : Z) (s : State) :
  i ≠ j → modify i a (modify j b s) = modify j b (modify i a s).
Proof. apply modify_commute. Qed.

Lemma edits_commute_witness :
  modify 0 60 (modify 6 (-9) (setup example_config true))
  = modify 6 (-9) (modify 0 60 (setup example_config true)).
Proof. apply edits_commute. discriminate. Defined.

(** ** The drawn pages *)

Lemma array_get_lookup {A} (arr : list A) (i : Z) :
  0 <= i < Z.of_nat (length arr) →
  ∃ x, arr !! Z.to_nat i = Some x ∧ array_get arr i = Some x.
Proof.
  intros Hi. destruct (lookup_lt_is_Some_2 arr (Z.to_nat i)) as [x Hx]; [lia|].
  exists x. split; [done|]. unfold array_get.
  by rewrite bool_decide_eq_true_2 by lia.
Qed.

Lemma displayTimes_eq s d :
  length (pumpActive s) = 6%nat →
  displayTimes s d
  = Some (mkDisplay 1 false (0, 0)
            (times_row s 0 ++ times_row s 1 ++ times_row s 2
             ++ times_row s 3 ++ times_row s 4 ++ times_row s 5)).
Proof.
  intros Hlen. unfold displayTimes.
  match goal with |- context [for_each_in ?f _ _] => set (body := f) end.
  assert (∀ i d', 0 <= i < 6 →
            body i d' = Some (mkDisplay (textSize d') false (textCursor d')
                                (shown d' ++ times_row s i))) as Hrow.
  { intros i [ts ti tc sh] Hi. unfold body, times_row.
    destruct (array_get_lookup (pumpActive s) i) as (a & -> & ->); [lia|].
    cbn [mbind option_bind default].
    destruct a, ((cursorPos s =? 2 * i) && blinker s),
      ((cursorPos s =? 2 * i + 1) && blinker s);
      lazy beta iota zeta delta
        [println print setTextColor_BLACK setTextColor_WHITE_BLACK
         textSize textInverse textCursor shown];
      by rewrite <- !app_assoc. }
  change (seqZ 0 6) with [0; 1; 2; 3; 4; 5]. cbn [for_each_in].
  rewrite !Hrow by lia. cbn [mbind option_bind].
  rewrite !Hrow by lia. cbn [mbind option_bind].
  rewrite !Hrow by lia. cbn [mbind option_bind].
  rewrite !Hrow by lia. cbn [mbind option_bind].
  rewrite !Hrow by lia. cbn [mbind option_bind].
  rewrite !Hrow by lia. cbn [mbind option_bind].
  unfold display_display, setCursor, setTextSize, clearDisplay.
  cbn [textSize textInverse textCursor shown].
  by rewrite <- !app_assoc.
Qed.

Lemma displayRuntime_eq s d :
  displayRuntime s d = Some (mkDisplay 1 false (0, 0) (runtime_page s)).
Proof.
  destruct d as [ts ti tc sh]. unfold displayRuntime, runtime_page.
  destruct ((cursorPos s =? 12) && blinker s),
    ((cursorPos s =? 13) && blinker s);
    lazy beta iota zeta delta
      [println print setTextColor_BLACK setTextColor_WHITE_BLACK
       setCursor setTextSize clearDisplay display_display
       textSize textInverse textCursor shown app];
    reflexivity.
Qed.

Lemma hours_minutes v :
  c_div v 60 * 60 + c_rem v 60 = v
  ∧ (0 <= v → 0 <= c_div v 60 ∧ 0 <= c_rem v 60 < 60)
  ∧ (v <= 0 → c_div v 60 <= 0 ∧ -60 < c_rem v 60 <= 0).
Proof.
  unfold c_div, c_rem. Z.quot_rem_to_equations. lia.
Qed.

(** X9 - The pages show the stored values: on page 1 the two numbers
    drawn in the row of pump [i] are hours [h] and minutes [m] with
    [h*60 + m = getInt(i)], and on page 2 the two numbers recompose the
    runtime [getInt(6)]; for a non-negative value the minutes are in
    [0,60) and the hours are non-negative. *)
Theorem drawn_values_read_back (s : State) (d : Display) :
  length (pumpActive s) = 6%nat →
  (∃ d', displayTimes s d = Some d'
         ∧ ∀ i, 0 <= i < 6 →
             ∃ h m, shown_number d' (Z.to_nat (8 * i + 3)) = Some h
                    ∧ shown_number d' (Z.to_nat (8 * i + 5)) = Some m
                    ∧ h * 60 + m = Properties_getInt i s
                    ∧ (0 <= Properties_getInt i s → 0 <= h ∧ 0 <= m < 60))
  ∧ (∃ d', displayRuntime s d = Some d'
           ∧ ∃ h m, shown_number d' 2 = Some h
                    ∧ shown_number d' 4 = Some m
                    ∧ h * 60 + m = Properties_getInt 6 s
                    ∧ (0 <= Properties_getInt 6 s → 0 <= h ∧ 0 <= m < 60)).
Proof.
  intros Hlen. split.
  - rewrite displayTimes_eq by done. eexists. split; [reflexivity|].
    intros i Hi.
    exists (c_div (Properties_getInt i s) 60),
           (c_rem (Properties_getInt i s) 60).
    destruct (hours_minutes (Properties_getInt i s)) as (Hsum & Hpos & _).
    assert (i = 0 ∨ i = 1 ∨ i = 2 ∨ i = 3 ∨ i = 4 ∨ i = 5) as Hc by lia.
    destruct Hc as [->|[->|[->|[->|[->| ->]]]]];
      (split; [reflexivity|]); (split; [reflexivity|]); by split.
  - rewrite displayRuntime_eq. eexists. split; [reflexivity|].
    exists (c_div (Properties_getInt 6 s) 60),
           (c_rem (Properties_getInt 6 s) 60).
    destruct (hours_minutes (Properties_getInt 6 s)) as (Hsum & Hpos & _).
    split; [reflexivity|]. split; [reflexivity|]. by split.
Qed.

Lemma drawn_values_read_back_witness :
  ∃ d', displayRuntime (modify 6 125 (setup example_config true))
          (mkDisplay 2 true (0, 0) []) = Some d'
        ∧ shown_number d' 2 = Some 2 ∧ shown_number d' 4 = Some 6.
Proof.
  destruct (drawn_values_read_back (modify 6 125 (setup example_config true))
              (mkDisplay 2 true (0, 0) []))
    as (_ & d' & Hd & h & m & Hh & Hm & Hsum & Hpos); [reflexivity|].
  exists d'. split; [exact Hd|].
  destruct Hpos as [Hh0 Hm0]; [vm_compute; discriminate|].
  change (Properties_getInt 6 (modify 6 125 (setup example_config true)))
    with 126 in Hsum.
  assert (h = 2) by lia. assert (m = 6) by lia. subst h m.
  split; [exact Hh | exact Hm].
Defined.

(** X10 - The highlighted row is the active pump: on page 1 the label of
    row [i] is drawn inverted exactly when [pumpActive[i]] is set, and in
    every state reached from [setup()] page 1 is drawn and at most one
    row label is inverted. *)
Theorem drawn_highlight_is_active_pump stored loaded evs s (d : Display) :
  run evs (setup stored loaded) = Some s →
  ∃ d', displayTimes s d = Some d'
        ∧ (∀ i : nat, (i < 6)%nat →
             shown d' !! (8 * i)%nat
             = Some (mkToken (ItText "P")
                       (default false (pumpActive s !! i)))
             ∧ shown d' !! (8 * i + 1)%nat
               = Some (mkToken (ItNumber (Z.of_nat i + 1))
                         (default false (pumpActive s !! i))))
        ∧ ∀ i j : nat, (i < 6)%nat → (j < 6)%nat →
            inverse <$> shown d' !! (8 * i)%nat = Some true →
            inverse <$> shown d' !! (8 * j)%nat = Some true → i = j.
Proof.
  intros Hreach.
  destruct (run_engine_inv evs _ _ (setup_engine_inv stored loaded) Hreach)
    as [[Hlen Hone] _].
  rewrite displayTimes_eq by done. eexists. split; [reflexivity|].
  cbn [shown].
  assert (∀ i : nat, (i < 6)%nat →
            (times_row s 0 ++ times_row s 1 ++ times_row s 2
             ++ times_row s 3 ++ times_row s 4 ++ times_row s 5)
              !! (8 * i)%nat
            = Some (mkToken (ItText "P")
                      (default false (pumpActive s !! i)))
            ∧ (times_row s 0 ++ times_row s 1 ++ times_row s 2
               ++ times_row s 3 ++ times_row s 4 ++ times_row s 5)
                !! (8 * i + 1)%nat
              = Some (mkToken (ItNumber (Z.of_nat i + 1))
                        (default false (pumpActive s !! i)))) as Hlab.
  { intros i Hi.
    do 6 (destruct i as [|i]; [split; reflexivity|]). lia. }
  split; [exact Hlab|].
  intros i j Hi Hj Hinv_i Hinv_j.
  rewrite (proj1 (Hlab i Hi)) in Hinv_i.
  rewrite (proj1 (Hlab j Hj)) in Hinv_j.
  cbn in Hinv_i, Hinv_j. apply Hone.
  - destruct (pumpActive s !! i) as [[]|]; by inversion Hinv_i.
  - destruct (pumpActive s !! j) as [[]|]; by inversion Hinv_j.
Qed.

Lemma drawn_highlight_is_active_pump_witness :
  ∃ s, run [EvUnderWater; EvTimer 1; EvTimer 1] (setup example_config true)
       = Some s
       ∧ ∃ d', displayTimes s (mkDisplay 2 false (0, 0) []) = Some d'
               ∧ shown d' !! 8%nat = Some (mkToken (ItText "P") true)
               ∧ shown d' !! 0%nat = Some (mkToken (ItText "P") false).
Proof.
  eexists. split; [vm_compute; reflexivity|].
  match goal with
  | |- ∃ d', displayTimes ?s ?d = _ ∧ _ =>
      destruct (drawn_highlight_is_active_pump example_config true
                  [EvUnderWater; EvTimer 1; EvTimer 1] s d)
        as (d' & Hd & Hlab & _); [vm_compute; reflexivity|]
  end.
  exists d'. split; [exact Hd|].
  split; [exact (proj1 (Hlab 1%nat ltac:(lia)))
         | exact (proj1 (Hlab 0%nat ltac:(lia)))].
Defined.

(** X11 - The digit being edited is on the page drawn, and it alone
    blinks: with the cursor in [0,14), [loop()] draws page 1 for cursor
    positions 0..11 and page 2 for 12 and 13; the number at the cursor's
    place is the hours (even position) or minutes (odd position) of entry
    [cursor/2], drawn inverted exactly when [blinker] is set, and no other
    digit of that page is inverted. *)
Theorem drawn_blink_is_cursor_digit (s : State) (d : Display) :
  0 <= cursorPos s < 14 → length (pumpActive s) = 6%nat →
  ∃ d', loop_draw s d = Some d'
        ∧ shown d' !! digit_token (cursorPos s)
          = Some (mkToken (ItNumber (digit_value s (cursorPos s)))
                    (blinker s))
        ∧ ∀ c, 0 <= c < 14 → (c <? 12) = (cursorPos s <? 12) →
               c ≠ cursorPos s →
               shown d' !! digit_token c
               = Some (mkToken (ItNumber (digit_value s c)) false).
Proof.
  intros Hc Hlen. unfold loop_draw.
  assert (∃ k, cursorPos s = k
               ∧ (k = 0 ∨ k = 1 ∨ k = 2 ∨ k = 3 ∨ k = 4 ∨ k = 5 ∨ k = 6
                  ∨ k = 7 ∨ k = 8 ∨ k = 9 ∨ k = 10 ∨ k = 11 ∨ k = 12
                  ∨ k = 13)) as (k & Hk & Hcases).
  { exists (cursorPos s). split; [done|lia]. }
  rewrite displayTimes_eq, displayRuntime_eq by done.
  unfold times_row, runtime_page. rewrite Hk.
  assert (∀ c, 0 <= c < 14 →
            c = 0 ∨ c = 1 ∨ c = 2 ∨ c = 3 ∨ c = 4 ∨ c = 5 ∨ c = 6 ∨ c = 7
            ∨ c = 8 ∨ c = 9 ∨ c = 10 ∨ c = 11 ∨ c = 12 ∨ c = 13) as Hall
    by (intros; lia).
  destruct Hcases
    as [->|[->|[->|[->|[->|[->|[->|[->|[->|[->|[->|[->|[->| ->]]]]]]]]]]]]];
    (eexists; split; [reflexivity|]; split; [reflexivity|];
     intros c Hcr Hpage Hne;
     destruct (Hall c Hcr)
       as [->|[->|[->|[->|[->|[->|[->|[->|[->|[->|[->|[->|[->| ->]]]]]]]]]]]]];
     first [ done | discriminate Hpage | reflexivity ]).
Qed.

Lemma drawn_blink_is_cursor_digit_witness :
  ∃ d', loop_draw (set_blinker true (set_cursorPos 13
                     (modify 6 125 (setup example_config true))))
          (mkDisplay 2 false (0, 0) []) = Some d'
        ∧ shown d' !! 4%nat = Some (mkToken (ItNumber 6) true)
        ∧ shown d' !! 2%nat = Some (mkToken (ItNumber 2) false).
Proof.
  destruct (drawn_blink_is_cursor_digit
              (set_blinker true (set_cursorPos 13
                 (modify 6 125 (setup example_config true))))
              (mkDisplay 2 false (0, 0) []))
    as (d' & Hd & Hcur & Hother).
  - cbn. lia.
  - reflexivity.
  - exists d'. split; [exact Hd|]. split; [exact Hcur|].
    apply (Hother 12); [lia | reflexivity | discriminate].
Defined.

(** ** The basic sequencer *)

Lemma basic_count_cb_nonneg cb l : 0 <= Basic.count_cb cb l.
Proof.
  induction l as [|ev l IH]; cbn [Basic.count_cb]; [|case_bool_decide]; lia.
Qed.

Lemma basic_count_cb_app cb l1 l2 :
  Basic.count_cb cb (l1 ++ l2) = Basic.count_cb cb l1 + Basic.count_cb cb l2.
Proof. induction l1 as [|ev l1 IH]; cbn [app Basic.count_cb]; lia. Qed.

Lemma basic_count_cb_delete cb l : ∀ k ev,
  l !! k = Some ev →
  Basic.count_cb cb (delete k l)
  = Basic.count_cb cb l - (if bool_decide (ev.2 = cb) then 1 else 0).
Proof.
  induction l as [|x l IH]; intros k ev Hk; [done|].
  destruct k as [|k].
  - cbn in Hk. apply (inj Some) in Hk; subst x.
    change (delete 0%nat (ev :: l)) with l.
    cbn [Basic.count_cb]. case_bool_decide; lia.
  - cbn in Hk. change (delete (S k) (x :: l)) with (x :: delete k l).
    cbn [Basic.count_cb]. rewrite (IH k ev Hk). lia.
Qed.

Lemma basic_count_cb_elem cb l ev :
  ev ∈ l → ev.2 = cb → 1 <= Basic.count_cb cb l.
Proof.
  intros Hin Hcb. induction Hin as [ev l|ev x l Hin IH]; cbn [Basic.count_cb].
  - rewrite bool_decide_eq_true_2 by done.
    pose proof (basic_count_cb_nonneg cb l). lia.
  - specialize (IH Hcb). case_bool_decide; lia.
Qed.

Lemma basic_setup_eq :
  Basic.setup
  = Some (Basic.mkState 0 0
            [(0, Basic.CbStartPump); (60000, Basic.CbStartPump);
             (120000, Basic.CbStartPump); (180000, Basic.CbStartPump);
             (240000, Basic.CbStartPump); (300000, Basic.CbStartPump)] ∅).
Proof. reflexivity. Qed.

Lemma basic_timer_fire_window k s :
  Basic.window_inv s →
  ∃ s', Basic.timer_fire k s = Some s' ∧ Basic.window_inv s'.
Proof.
  intros (Hstart & Hstop & Hcur & Hpins).
  pose proof (basic_count_cb_nonneg Basic.CbStartPump (Basic.timer s)) as HS.
  pose proof (basic_count_cb_nonneg Basic.CbStopPump (Basic.timer s)) as HT.
  unfold Basic.timer_fire.
  destruct (Basic.timer s !! k) as [[delay cb]|] eqn:Ek; cycle 1.
  { exists s. by split. }
  assert ((delay, cb) ∈ Basic.timer s) as Hev
    by (eapply list_elem_of_lookup_2; eauto).
  destruct cb; cbn [snd Basic.run_callback].
  - (* a start callback *)
    pose proof (basic_count_cb_elem Basic.CbStartPump _ _ Hev eq_refl) as H1.
    unfold Basic.startPump.
    assert (array_get PUMP_PINS (Basic.initPumpNo s)
            = Some (8 + Basic.initPumpNo s)) as ->.
    { apply array_get_PUMP_PINS. lia. }
    cbn [mbind option_bind]. eexists. split; [reflexivity|].
    unfold Basic.window_inv, Basic.pin_is_high, Basic.timer_after,
      Basic.digitalWrite.
    cbn [Basic.initPumpNo Basic.currentPumpNo Basic.timer Basic.pinLevel].
    rewrite !(basic_count_cb_delete _ _ k (delay, Basic.CbStartPump))
      by (by apply lookup_app_l_Some).
    rewrite !basic_count_cb_app. cbn [Basic.count_cb snd].
    rewrite wrap16_id by lia.
    repeat split; try (repeat case_bool_decide; try done; lia).
    intros i pin Hpin. pose proof (Hpins i pin Hpin) as Hold.
    apply PUMP_PINS_lookup in Hpin as [Hi ->].
    unfold Basic.pin_is_high in Hold.
    destruct (decide (Z.of_nat i = Basic.initPumpNo s)) as [Heq|Hne].
    + rewrite <- Heq, lookup_insert_eq. cbn [default].
      by rewrite bool_decide_eq_true_2 by lia.
    + rewrite lookup_insert_ne by lia. rewrite Hold.
      apply bool_decide_ext. lia.
  - (* a stop callback *)
    pose proof (basic_count_cb_elem Basic.CbStopPump _ _ Hev eq_refl) as H1.
    unfold Basic.stopPump.
    assert (array_get PUMP_PINS (Basic.currentPumpNo s)
            = Some (8 + Basic.currentPumpNo s)) as ->.
    { apply array_get_PUMP_PINS. lia. }
    cbn [mbind option_bind]. eexists. split; [reflexivity|].
    unfold Basic.window_inv, Basic.pin_is_high, Basic.digitalWrite.
    cbn [Basic.initPumpNo Basic.currentPumpNo Basic.timer Basic.pinLevel].
    rewrite !(basic_count_cb_delete _ _ k (delay, Basic.CbStopPump)) by done.
    cbn [snd]. rewrite wrap16_id by lia.
    repeat split; try (repeat case_bool_decide; try done; lia).
    intros i pin Hpin. pose proof (Hpins i pin Hpin) as Hold.
    apply PUMP_PINS_lookup in Hpin as [Hi ->].
    unfold Basic.pin_is_high in Hold.
    destruct (decide (Z.of_nat i = Basic.currentPumpNo s)) as [Heq|Hne].
    + rewrite <- Heq, lookup_insert_eq. cbn [default].
      by rewrite bool_decide_eq_false_2 by lia.
    + rewrite lookup_insert_ne by lia. rewrite Hold.
      apply bool_decide_ext. lia.
Qed.

Lemma basic_run_window due : ∀ s,
  Basic.window_inv s → ∃ s', Basic.run due s = Some s' ∧ Basic.window_inv s'.
Proof.
  induction due as [|k due IH]; intros s Hs.
  - exists s. by split.
  - destruct (basic_timer_fire_window k s Hs) as (s1 & Hstep & Hs1).
    destruct (IH s1 Hs1) as (s' & Hrun & Hs').
    exists s'. split; [|done]. cbn [Basic.run]. by rewrite Hstep.
Qed.

Lemma basic_setup_window s0 : Basic.setup = Some s0 → Basic.window_inv s0.
Proof.
  rewrite basic_setup_eq. intros H. apply (inj Some) in H. subst s0.
  unfold Basic.window_inv, Basic.pin_is_high.
  cbn [Basic.initPumpNo Basic.currentPumpNo Basic.timer Basic.pinLevel].
  repeat split; try done.
  intros i pin _. rewrite lookup_empty. cbn [default].
  by rewrite bool_decide_eq_false_2 by lia.
Qed.

(** X12 - The basic sequencer stays in bounds: [setup()] returns, and
    after it every sequence of timer firings, in any order, is carried
    out to the end; [PUMP_PINS] is never indexed outside 0..5 and the
    counters satisfy [0 <= currentPumpNo <= initPumpNo <= 6]. *)
Theorem basic_run_in_bounds (due : list nat) :
  ∃ s0 s, Basic.setup = Some s0 ∧ Basic.run due s0 = Some s
          ∧ 0 <= Basic.currentPumpNo s <= Basic.initPumpNo s
          ∧ Basic.initPumpNo s <= 6.
Proof.
  destruct Basic.setup as [s0|] eqn:E; [|by rewrite basic_setup_eq in E].
  destruct (basic_run_window due s0 (basic_setup_window s0 E))
    as (s & Hrun & Hstart & Hstop & Hcur & _).
  exists s0, s. split; [done|]. split; [done|].
  pose proof (basic_count_cb_nonneg Basic.CbStartPump (Basic.timer s)).
  pose proof (basic_count_cb_nonneg Basic.CbStopPump (Basic.timer s)).
  lia.
Qed.

(** X13 - The pumps that are on, in the basic sequencer: after any
    sequence of timer firings pump [i] is on exactly when
    [currentPumpNo <= i < initPumpNo], and once no timer entry is pending
    all six pumps have been started and every pump pin is low. *)
Theorem basic_pumps_on_window (due : list nat) (s0 s : Basic.State) :
  Basic.setup = Some s0 → Basic.run due s0 = Some s →
  (∀ (i : nat) pin,
     PUMP_PINS !! i = Some pin →
     Basic.pin_is_high s pin
     = bool_decide (Basic.currentPumpNo s <= Z.of_nat i < Basic.initPumpNo s))
  ∧ (Basic.timer s = [] →
     Basic.initPumpNo s = 6 ∧ Basic.currentPumpNo s = 6
     ∧ ∀ pin, pin ∈ PUMP_PINS → Basic.pin_is_high s pin = false).
Proof.
  intros Hsetup Hrun.
  destruct (basic_run_window due s0 (basic_setup_window s0 Hsetup))
    as (s' & Hrun' & Hstart & Hstop & Hcur & Hpins).
  rewrite Hrun in Hrun'. apply (inj Some) in Hrun'. subst s'.
  split; [exact Hpins|].
  intros Hempty. rewrite Hempty in Hstart, Hstop.
  cbn [Basic.count_cb] in Hstart, Hstop.
  repeat split; try lia.
  intros pin Hpin. apply list_elem_of_lookup in Hpin as [i Hi].
  rewrite (Hpins i pin Hi). by rewrite bool_decide_eq_false_2 by lia.
Qed.

Lemma basic_pumps_on_window_witness :
  ∃ s0 s, Basic.setup = Some s0
          ∧ Basic.run [0; 0; 4; 0; 3; 0; 0; 0; 0; 0; 0; 0]%nat s0 = Some s
          ∧ Basic.timer s = []
          ∧ Basic.initPumpNo s = 6
          ∧ ∀ pin, pin ∈ PUMP_PINS → Basic.pin_is_high s pin = false.
Proof.
  do 2 eexists. split; [reflexivity|]. split; [vm_compute; reflexivity|].
  split; [reflexivity|].
  match goal with
  | |- Basic.initPumpNo ?s = _ ∧ _ =>
      destruct (basic_pumps_on_window
                  [0; 0; 4; 0; 3; 0; 0; 0; 0; 0; 0; 0]%nat
                  (Basic.mkState 0 0
                     [(0, Basic.CbStartPump); (60000, Basic.CbStartPump);
                      (120000, Basic.CbStartPump); (180000, Basic.CbStartPump);
                      (240000, Basic.CbStartPump); (300000, Basic.CbStartPump)]
                     ∅) s)
        as (_ & Hend); [reflexivity | vm_compute; reflexivity |]
  end.
  destruct (Hend eq_refl) as (Hinit & _ & Hlow).
  split; [exact Hinit | exact Hlow].
Defined.

(** ** One iteration of the loop *)

(** X14 - Every iteration redraws from scratch: in a state reached from
    [setup()], an iteration of [loop()] whose dispatched events are
    carried out always completes its drawing ([pumpActive] is read inside
    its bounds), and the page drawn, its text size and colour included,
    does not depend on what the display held before. *)
Theorem loop_redraws_from_scratch stored loaded evs0 s evs s' (d : Display) :
  run evs0 (setup stored loaded) = Some s → run evs s = Some s' →
  ∃ d', loop evs (s, d) = Some (s', d')
        ∧ textSize d' = 1 ∧ textInverse d' = false
        ∧ ∀ d2, loop evs (s, d2) = Some (s', d').
Proof.
  intros Hreach Hrun.
  assert (length (pumpActive s') = 6%nat) as Hlen.
  { assert (run (evs0 ++ evs) (setup stored loaded) = Some s') as Hboth.
    { rewrite run_app, Hreach. exact Hrun. }
    by destruct (run_engine_inv _ _ _ (setup_engine_inv stored loaded) Hboth)
      as [[Hlen _] _]. }
  unfold loop, loop_draw. cbn [fst snd]. rewrite Hrun.
  cbn [mbind option_bind].
  rewrite displayTimes_eq, displayRuntime_eq by done.
  destruct (cursorPos s' <? 12); eexists; (split; [reflexivity|]);
    repeat split; intros d2; by rewrite ?displayTimes_eq, ?displayRuntime_eq.
Qed.

Lemma loop_redraws_from_scratch_witness :
  ∃ s, run [EvUnderWater] (setup example_config true) = Some s
       ∧ ∃ s' d', run [EvTimer 1; EvIncrementCursor] s = Some s'
                  ∧ loop [EvTimer 1; EvIncrementCursor]
                      (s, mkDisplay 2 true (3, 4) [mkToken ItNewline true])
                    = Some (s', d')
                  ∧ textSize d' = 1.
Proof.
  eexists. split; [vm_compute; reflexivity|].
  eexists. 
  match goal with
  | |- ∃ d', run ?evs ?s = Some ?s' ∧ loop _ (_, ?d) = _ ∧ _ =>
      assert (run evs s = Some s') as Hrun by (vm_compute; reflexivity);
      destruct (loop_redraws_from_scratch example_config true [EvUnderWater]
                  s evs s' d)
        as (d' & Hloop & Hsize & _);
        [vm_compute; reflexivity | exact Hrun |]
  end.
  exists d'. split; [exact Hrun|]. split; [exact Hloop | exact Hsize].
Defined.
